(** * gscloud: the kubernetes cluster commands (cmd/kubernetes.go)

    A shallow embedding of [save-kubeconfig] and [exec-credential] together
    with the credential cache they share, and the properties of the
    natural-language specification checked against it.

    The commands are Go closures that read flags, touch the file system, the
    two output streams, the clock and the provider's API, and may leave the
    process through [os.Exit] or a run-time panic.  They are embedded as
    state-passing procedures over a [World]; what the Go standard library,
    client-go and the rest of the repository supply is collected in the
    [Externals] interface. *)

From Stdlib Require Import ZArith String Ascii List Bool Lia.
From stdpp Require Import base gmap strings list fin_maps pretty.

Local Open Scope string_scope.
Local Open Scope Z_scope.

(** ** Values *)

(** A Go [[]byte] and a Go [string] are both byte sequences; [string(b)] and
    [[]byte(s)] are the identity on them. *)
Definition bytes := string.

(** [error] values.  [os.IsNotExist] has to recognise one kind of them; all
    others only matter through their [Error()] text. *)
Inductive error :=
| ErrNotExist (op path : string)
| ErrOther (msg : string).

Definition Error (e : error) : string :=
  match e with
  | ErrNotExist op path => op +:+ " " +:+ path +:+ ": no such file or directory"
  | ErrOther msg => msg
  end.

Definition os_IsNotExist (e : error) : bool :=
  match e with ErrNotExist _ _ => true | ErrOther _ => false end.

(** [time.Time] as an instant: nanoseconds since January 1, year 1, 00:00 UTC,
    the instant [IsZero] reports. *)
Definition Time := Z.
Definition Duration := Z.

Definition time_Hour : Duration := 3600 * 1000000000.
Definition Time_IsZero (t : Time) : bool := t =? 0.
Definition Time_Before (t u : Time) : bool := t <? u.
Definition Time_Add (t : Time) (d : Duration) : Time := t + d.

(** [*metav1.Time]: the receiver of [IsZero] may be nil, which counts as
    zero. *)
Definition metav1_IsZero (t : option Time) : bool :=
  match t with
  | None => true
  | Some t => Time_IsZero t
  end.

(** [clientauth.ExecCredential] (v1beta1), with the fields the commands set or
    read. *)
Record ExecCredentialStatus := {
  ExpirationTimestamp : option Time;
  ClientCertificateData : string;
  ClientKeyData : string
}.

Record ExecCredential := {
  Kind : string;
  APIVersion : string;
  Status : option ExecCredentialStatus
}.

(** [clientauth.SchemeGroupVersion.String()]. *)
Definition SchemeGroupVersion_String : string :=
  "client.authentication.k8s.io/v1beta1".

(** The repository's [kubeConfig]: the provider's kubeconfig document as the
    commands read it. *)
Record kubeConfigClusterData := {
  Server : string;
  CertificateAuthorityData : string
}.

Record kubeConfigCluster := {
  ClusterName : string;
  Cluster : kubeConfigClusterData
}.

Record kubeConfigUserData := {
  UserClientCertificateData : string;
  UserClientKeyData : string
}.

Record kubeConfigUser := {
  UserName : string;
  User : kubeConfigUserData
}.

Record kubeConfig := {
  Clusters : list kubeConfigCluster;
  Users : list kubeConfigUser;
  CurrentContext : string
}.

Definition kubeConfig_zero : kubeConfig :=
  {| Clusters := []; Users := []; CurrentContext := "" |}.

(** [clientcmdapi.Config] and its parts. *)
Record api_Cluster := {
  api_Server : string;
  api_CertificateAuthorityData : bytes
}.

Record api_ExecConfig := {
  exec_Command : string;
  exec_Args : list string;
  exec_APIVersion : string
}.

Record api_AuthInfo := {
  api_ClientCertificate : string;
  api_ClientCertificateData : bytes;
  api_ClientKey : string;
  api_ClientKeyData : bytes;
  api_Exec : option api_ExecConfig
}.

Record api_Context := {
  ctx_Cluster : string;
  ctx_AuthInfo : string
}.

Record api_Config := {
  cfg_Clusters : gmap string api_Cluster;
  cfg_AuthInfos : gmap string api_AuthInfo;
  cfg_Contexts : gmap string api_Context;
  cfg_CurrentContext : string
}.

Record PathOptions := { GlobalFile : string }.

(** [endpoints.PaaSService], down to the kubeconfig blobs. *)
Record PaaSCredential := { KubeConfig : string }.
Record PaaSServiceProperties := { Credentials : list PaaSCredential }.
Record PaaSService := { Properties : PaaSServiceProperties }.

Inductive http_method := MethodGet | MethodPatch.

Record request := {
  uri : string;
  method : http_method
}.

(** ** The world a command runs in *)

(** Regular files by path, the two output streams, the value of
    [KUBECONFIG], the requests sent to the provider so far (oldest first) and
    the number of clock readings taken.  Directories, permissions and device
    errors are outside the model: a path either names a regular file or
    nothing. *)
Record World := {
  fs : gmap string string;
  stdout : string;
  stderr : string;
  KUBECONFIG : string;
  net : list request;
  ticks : nat
}.

Definition with_fs (w : World) (m : gmap string string) : World :=
  {| fs := m; stdout := stdout w; stderr := stderr w;
     KUBECONFIG := KUBECONFIG w; net := net w; ticks := ticks w |}.

Definition with_stdout (w : World) (s : string) : World :=
  {| fs := fs w; stdout := s; stderr := stderr w;
     KUBECONFIG := KUBECONFIG w; net := net w; ticks := ticks w |}.

Definition with_stderr (w : World) (s : string) : World :=
  {| fs := fs w; stdout := stdout w; stderr := s;
     KUBECONFIG := KUBECONFIG w; net := net w; ticks := ticks w |}.

Definition with_net (w : World) (l : list request) : World :=
  {| fs := fs w; stdout := stdout w; stderr := stderr w;
     KUBECONFIG := KUBECONFIG w; net := l; ticks := ticks w |}.

Definition with_ticks (w : World) (n : nat) : World :=
  {| fs := fs w; stdout := stdout w; stderr := stderr w;
     KUBECONFIG := KUBECONFIG w; net := net w; ticks := n |}.

(** How a procedure ends: it returns a value, the process exits with a code,
    or the Go run time panics. *)
Inductive Result (A : Type) :=
| Ok (a : A)
| Exit (code : Z)
| Panic (msg : string).
Arguments Ok {A} a.
Arguments Exit {A} code.
Arguments Panic {A} msg.

Definition Proc (A : Type) : Type := World -> World * Result A.

Definition ret {A} (a : A) : Proc A := fun w => (w, Ok a).

Definition bind {A B} (m : Proc A) (k : A -> Proc B) : Proc B :=
  fun w =>
    match m w with
    | (w', Ok a) => k a w'
    | (w', Exit c) => (w', Exit c)
    | (w', Panic s) => (w', Panic s)
    end.

Notation "'let!' x ':=' m 'in' k" := (bind m (fun x => k))
  (at level 10, x name, m at level 200, k at level 200,
   format "'[v' 'let!'  x  ':='  m  'in' '/' k ']'").
Notation "'let!' ' p ':=' m 'in' k" :=
  (bind m (fun x => match x with p => k end))
  (at level 10, p pattern, m at level 200, k at level 200,
   format "'[v' 'let!'  ' p  ':='  m  'in' '/' k ']'").

Definition os_Exit {A} (code : Z) : Proc A := fun w => (w, Exit code).

Definition nil_dereference : string :=
  "runtime error: invalid memory address or nil pointer dereference".

(** Reading through a pointer: nil panics. *)
Definition deref {A} (p : option A) : Proc A :=
  fun w =>
    match p with
    | Some a => (w, Ok a)
    | None => (w, Panic nil_dereference)
    end.

(** [fmt.Println] and [fmt.Fprintln]: the operands separated by spaces, then
    a newline. *)
Definition newline : string := String (ascii_of_nat 10) EmptyString.

Fixpoint Sprintln_operands (args : list string) : string :=
  match args with
  | [] => ""
  | [a] => a
  | a :: rest => a +:+ " " +:+ Sprintln_operands rest
  end.

Definition Sprintln (args : list string) : string :=
  Sprintln_operands args +:+ newline.

Definition fmt_Println (args : list string) : Proc unit :=
  fun w => (with_stdout w (stdout w +:+ Sprintln args), Ok tt).

Definition fmt_Fprintln_Stderr (args : list string) : Proc unit :=
  fun w => (with_stderr w (stderr w +:+ Sprintln args), Ok tt).

(** The [os] calls of the file, on regular files. *)
Definition os_Getenv_KUBECONFIG : Proc string :=
  fun w => (w, Ok (KUBECONFIG w)).

Definition os_Open (path : string) : Proc (string + error) :=
  fun w =>
    match fs w !! path with
    | Some data => (w, Ok (inl data))
    | None => (w, Ok (inr (ErrNotExist "open" path)))
    end.

Definition os_Remove (path : string) : Proc (option error) :=
  fun w =>
    match fs w !! path with
    | Some _ => (with_fs w (delete path (fs w)), Ok None)
    | None => (w, Ok (Some (ErrNotExist "remove" path)))
    end.

(** [os.Create]: the file is created or truncated. *)
Definition os_Create (path : string) : Proc (option error) :=
  fun w => (with_fs w (<[path := ""]> (fs w)), Ok None).

Definition os_MkdirAll (path : string) : Proc (option error) :=
  fun w => (w, Ok None).

(** [os.OpenFile] with [O_CREATE|O_RDWR|O_TRUNC]. *)
Definition os_OpenFile_trunc (path : string) : Proc (option error) :=
  fun w => (with_fs w (<[path := ""]> (fs w)), Ok None).

Definition file_Write (path data : string) : Proc unit :=
  fun w => (with_fs w (<[path := data]> (fs w)), Ok tt).

(** [fileExists]: [os.Stat] fails with not-exist exactly on a path that names
    nothing, and what exists here is never a directory. *)
Definition fileExists (filename : string) : Proc bool :=
  fun w =>
    match fs w !! filename with
    | None => (w, Ok false)
    | Some _ => let IsDir := false in (w, Ok (negb IsDir))
    end.

(** Indexing a slice: out of range panics. *)
Definition index {A} (l : list A) (i : nat) : Proc A :=
  fun w =>
    match l !! i with
    | Some a => (w, Ok a)
    | None => (w, Panic "runtime error: index out of range")
    end.

(** ** What the commands take from elsewhere *)

(** The package-level variables of the repository that the file reads, the
    library functions it calls, the clock and the provider.  A library
    function is typed by what the call site can observe of it. *)
Class Externals := {
  (* package-level variables and helpers of the repository *)
  cfgFile : string;
  account : string;
  apiPaasServiceBase : string;
  cliPath : string;
  (* path and path/filepath *)
  path_Join : list string -> string;
  filepath_Join : list string -> string;
  filepath_Dir : string -> string;
  filepath_Abs : string -> string;
  (* encoding/base64, StdEncoding.DecodeString: the bytes decoded and the
     error, if any *)
  DecodeString : string -> bytes * option error;
  (* encoding/json: Decoder.Decode into a nil *ExecCredential (the pointer
     it leaves, or the error), Encoder.Encode (the text written) and
     MarshalIndent *)
  json_Decode : string -> option ExecCredential + error;
  json_Encode : ExecCredential -> string + error;
  json_MarshalIndent : ExecCredential -> string -> string -> bytes * option error;
  (* yaml.v2: Unmarshal into a zero kubeConfig *)
  yaml_Unmarshal : string -> kubeConfig * option error;
  (* client-go, tools/clientcmd: the kubeconfig files are read and written
     under the path options and KUBECONFIG *)
  RecommendedHomeFile : string;
  GetStartingConfig :
    PathOptions -> string -> gmap string string -> api_Config + error;
  ModifyConfig :
    PathOptions -> api_Config -> string -> gmap string string ->
    gmap string string * option error;
  (* time.Now: the n-th reading of the clock *)
  clock : nat -> Time;
  (* the provider: its answer to a request, given the requests before it *)
  respond : list request -> request -> PaaSService + error
}.

Section Commands.

Context `{Ext : Externals}.

Definition time_Now : Proc Time :=
  fun w => (with_ticks w (S (ticks w)), Ok (clock (ticks w))).

Definition clientcmd_NewDefaultPathOptions : PathOptions :=
  {| GlobalFile := RecommendedHomeFile |}.

Definition clientcmd_GetStartingConfig (o : PathOptions)
  : Proc (api_Config + error) :=
  fun w => (w, Ok (GetStartingConfig o (KUBECONFIG w) (fs w))).

Definition clientcmd_ModifyConfig (o : PathOptions) (c : api_Config)
  : Proc (option error) :=
  fun w =>
    let '(m, err) := ModifyConfig o c (KUBECONFIG w) (fs w) in
    (with_fs w m, Ok err).

(** Modelled from the spec: [request.execute] is declared in another file of
    the repository.  It sends the request to the provider and decodes the
    answer into its output; "no retry or backoff logic is present -- a single
    failed HTTP call aborts the enclosing operation with a diagnostic
    message". *)
Definition execute (r : request) : Proc PaaSService :=
  fun w =>
    let w' := with_net w (net w ++ [r]) in
    match respond (net w) r with
    | inl service => (w', Ok service)
    | inr err => (with_stderr w' (stderr w' +:+ Sprintln [Error err]), Exit 1)
    end.

Definition report (err : option error) : Proc unit :=
  match err with
  | Some e => fmt_Fprintln_Stderr [Error e]
  | None => ret tt
  end.

(** *** fetchKubeConfigFromProvider *)

Definition fetchKubeConfigFromProvider (id : string) : Proc kubeConfig :=
  let kc := kubeConfig_zero in
  (* generate kubeconfig *)
  let r := {| uri := path_Join [apiPaasServiceBase; id; "renew_credentials"];
              method := MethodPatch |} in
  let! _ := execute r in
  (* retrieve kubeconfig *)
  let r := {| uri := path_Join [apiPaasServiceBase; id];
              method := MethodGet |} in
  let! paaSService := execute r in
  match Credentials (Properties paaSService) with
  | [] => ret kc
  | credential :: _ =>
    let '(kc, err) := yaml_Unmarshal (KubeConfig credential) in
    let! _ := report err in
    ret kc
  end.

(** *** The cache *)

Definition kubeConfigCachePath : string :=
  let dir := filepath_Abs (filepath_Dir cfgFile) in
  filepath_Join [dir; "cache"; "exec-credential"].

Definition cachedKubeConfigPath (id : string) : string :=
  filepath_Join [kubeConfigCachePath; id +:+ ".json"].

Definition cacheKubeConfig (id : string) (execCredential : ExecCredential)
  : Proc (option error) :=
  let! status := deref (Status execCredential) in
  if metav1_IsZero (ExpirationTimestamp status) then ret None else
  let cachePath := kubeConfigCachePath in
  let! err := os_MkdirAll cachePath in
  match err with
  | Some e => ret (Some e)
  | None =>
    let path := cachedKubeConfigPath id in
    let! err := os_OpenFile_trunc path in
    match err with
    | Some e => ret (Some e)
    | None =>
      match json_Encode execCredential with
      | inl text => let! _ := file_Write path text in ret None
      | inr e => ret (Some e)
      end
    end
  end.

Definition is_nil {A} (p : option A) : bool :=
  match p with None => true | Some _ => false end.

Definition loadCachedKubeConfig (id : string)
  : Proc (option ExecCredential * option error) :=
  let kubeConfigPath := cachedKubeConfigPath id in
  let! f := os_Open kubeConfigPath in
  match f with
  | inr err =>
    if os_IsNotExist err then ret (None, None) else ret (None, Some err)
  | inl data =>
    match json_Decode data with
    | inr err => ret (None, Some err)
    | inl execCredential =>
      (* timeStamp := execCredential.Status.ExpirationTimestamp *)
      let! ec := deref execCredential in
      let! status := deref (Status ec) in
      let timeStamp := ExpirationTimestamp status in
      let! invalid :=
        if is_nil (Status ec) || metav1_IsZero timeStamp then ret true
        else
          let! t := deref timeStamp in
          let! now := time_Now in
          ret (Time_Before t now) in
      if (invalid : bool) then
        let! err := os_Remove kubeConfigPath in
        ret (None, err)
      else ret (execCredential, None)
    end
  end.

(** *** exec-credential *)

Record ExecCredentialFlags := {
  exec_kubeconfig : string;
  exec_cluster : string
}.

Definition nonempty (s : string) : bool :=
  match s with EmptyString => false | String _ _ => true end.

(** Lines 155 to 166: the starting configuration is read for its errors
    only. *)
Definition readStartingConfig (flags : ExecCredentialFlags) : Proc unit :=
  let kubeConfigFile := exec_kubeconfig flags in
  let kubectlDefaults := clientcmd_NewDefaultPathOptions in
  let kubectlDefaults :=
    if nonempty kubeConfigFile then {| GlobalFile := kubeConfigFile |}
    else kubectlDefaults in
  let! starting := clientcmd_GetStartingConfig kubectlDefaults in
  report (match starting with inl _ => None | inr e => Some e end).

(** Lines 155 to 171: what the cache holds for the cluster, its errors
    reported. *)
Definition lookupCachedCredential (flags : ExecCredentialFlags)
  : Proc (option ExecCredential) :=
  let clusterID := exec_cluster flags in
  let! _ := readStartingConfig flags in
  let! '(execCredential, err) := loadCachedKubeConfig clusterID in
  let! _ := report err in
  ret execCredential.

Definition execCredentialCmd (flags : ExecCredentialFlags) : Proc unit :=
  let clusterID := exec_cluster flags in
  let! execCredential := lookupCachedCredential flags in
  let! execCredential :=
    match execCredential with
    | Some _ => ret execCredential
    | None =>
      let! newKubeConfig := fetchKubeConfigFromProvider clusterID in
      if (length (Users newKubeConfig) =? 0)%nat then ret execCredential
      else
        let! u := index (Users newKubeConfig) 0 in
        let '(clientKeyData, err) := DecodeString (UserClientKeyData (User u)) in
        let! _ := match err with
                  | Some e => fmt_Println [Error e]
                  | None => ret tt
                  end in
        let '(clientCertificateData, err) :=
          DecodeString (UserClientCertificateData (User u)) in
        let! _ := match err with
                  | Some e => fmt_Println [Error e]
                  | None => ret tt
                  end in
        let! now := time_Now in
        let execCredential :=
          {| Kind := "ExecCredential";
             APIVersion := SchemeGroupVersion_String;
             Status := Some
               {| ClientKeyData := clientKeyData;
                  ClientCertificateData := clientCertificateData;
                  ExpirationTimestamp := Some (Time_Add now time_Hour) |} |} in
        let! err := cacheKubeConfig clusterID execCredential in
        let! _ := report err in
        ret (Some execCredential)
    end in
  match execCredential with
  | None =>
    fmt_Println
      ["Error: Could not retrieve kubeconfig from provider for account: ";
       account]
  | Some execCredential =>
    let '(execCredentialJSON, err) :=
      json_MarshalIndent execCredential "" "    " in
    let! _ := report err in
    (* this output will be used by kubectl *)
    fmt_Println [execCredentialJSON]
  end.

(** *** save-kubeconfig *)

Record SaveKubeconfigFlags := {
  save_kubeconfig : string;
  save_cluster : string;
  save_credential_plugin : bool
}.

Definition set_Clusters (c : api_Config) (m : gmap string api_Cluster)
  : api_Config :=
  {| cfg_Clusters := m; cfg_AuthInfos := cfg_AuthInfos c;
     cfg_Contexts := cfg_Contexts c;
     cfg_CurrentContext := cfg_CurrentContext c |}.

Definition set_AuthInfos (c : api_Config) (m : gmap string api_AuthInfo)
  : api_Config :=
  {| cfg_Clusters := cfg_Clusters c; cfg_AuthInfos := m;
     cfg_Contexts := cfg_Contexts c;
     cfg_CurrentContext := cfg_CurrentContext c |}.

Definition set_Contexts (c : api_Config) (m : gmap string api_Context)
  : api_Config :=
  {| cfg_Clusters := cfg_Clusters c; cfg_AuthInfos := cfg_AuthInfos c;
     cfg_Contexts := m;
     cfg_CurrentContext := cfg_CurrentContext c |}.

Definition set_CurrentContext (c : api_Config) (s : string) : api_Config :=
  {| cfg_Clusters := cfg_Clusters c; cfg_AuthInfos := cfg_AuthInfos c;
     cfg_Contexts := cfg_Contexts c;
     cfg_CurrentContext := s |}.

(** Printing an error to the diagnostic stream and leaving with status 1. *)
Definition fatal {A} (line : string) : Proc A :=
  let! _ := fmt_Fprintln_Stderr [line] in
  os_Exit 1.

(** The arguments of the exec plugin entry. *)
Definition execArgs (clusterID : string) : list string :=
  ["--config"; cfgFile; "--account"; account;
   "kubernetes"; "cluster"; "exec-credential"; "--cluster"; clusterID].

(** Lines 68 to 130 of the command: the fetched [newKubeConfig] is checked
    and merged into [currentKubeConfig], in memory. *)
Definition mergeKubeConfig (credentialPlugin : bool) (clusterID : string)
    (currentKubeConfig : api_Config) (newKubeConfig : kubeConfig)
  : Proc api_Config :=
  if (length (Clusters newKubeConfig) =? 0)%nat
     || (length (Users newKubeConfig) =? 0)%nat
  then fatal "Error: Invaild kubeconfig"
  else
    let! c := index (Clusters newKubeConfig) 0 in
    let! u := index (Users newKubeConfig) 0 in
    let '(certificateAuthorityData, err) :=
      DecodeString (CertificateAuthorityData (Cluster c)) in
    match err with
    | Some e => fatal (Error e)
    | None =>
      let currentKubeConfig :=
        set_Clusters currentKubeConfig
          (<[ClusterName c :=
               {| api_Server := Server (Cluster c);
                  api_CertificateAuthorityData := certificateAuthorityData |}]>
             (cfg_Clusters currentKubeConfig)) in
      let currentKubeConfig :=
        set_AuthInfos currentKubeConfig
          (<[UserName u :=
               {| api_ClientCertificate := UserClientKeyData (User u);
                  api_ClientCertificateData := "";
                  api_ClientKey := UserClientCertificateData (User u);
                  api_ClientKeyData := "";
                  api_Exec := None |}]>
             (cfg_AuthInfos currentKubeConfig)) in
      let! currentKubeConfig :=
        if credentialPlugin then
          ret (set_AuthInfos currentKubeConfig
                 (<[UserName u :=
                      {| api_ClientCertificate := "";
                         api_ClientCertificateData := "";
                         api_ClientKey := "";
                         api_ClientKeyData := "";
                         api_Exec := Some
                           {| exec_APIVersion := SchemeGroupVersion_String;
                              exec_Command := cliPath;
                              exec_Args := execArgs clusterID |} |}]>
                    (cfg_AuthInfos currentKubeConfig)))
        else
          let '(clientCertificateData, err) :=
            DecodeString (UserClientCertificateData (User u)) in
          match err with
          | Some e => fatal (Error e)
          | None =>
            let '(clientKeyData, err) :=
              DecodeString (UserClientKeyData (User u)) in
            match err with
            | Some e => fatal (Error e)
            | None =>
              ret (set_AuthInfos currentKubeConfig
                     (<[UserName u :=
                          {| api_ClientCertificate := "";
                             api_ClientCertificateData := clientCertificateData;
                             api_ClientKey := "";
                             api_ClientKeyData := clientKeyData;
                             api_Exec := None |}]>
                        (cfg_AuthInfos currentKubeConfig)))
            end
          end in
      let currentKubeConfig :=
        set_Contexts currentKubeConfig
          (<[CurrentContext newKubeConfig :=
               {| ctx_Cluster := ClusterName c; ctx_AuthInfo := UserName u |}]>
             (cfg_Contexts currentKubeConfig)) in
      ret (set_CurrentContext currentKubeConfig (CurrentContext newKubeConfig))
    end.

(** Lines 43 to 60: the kubeconfig file is chosen and, if it names nothing,
    created empty. *)
Definition prepareKubeconfigFile (flags : SaveKubeconfigFlags)
  : Proc PathOptions :=
  let kubeConfigFile := save_kubeconfig flags in
  let! kubeConfigEnv := os_Getenv_KUBECONFIG in
  let pathOptions := clientcmd_NewDefaultPathOptions in
  let '(kubeConfigEnv, pathOptions) :=
    if nonempty kubeConfigFile
    then (kubeConfigFile, {| GlobalFile := kubeConfigFile |})
    else (kubeConfigEnv, pathOptions) in
  let! missing :=
    if nonempty kubeConfigEnv then
      let! found := fileExists kubeConfigEnv in
      ret (negb found)
    else ret false in
  let! _ :=
    if (missing : bool) then
      let! err := os_Create kubeConfigEnv in
      match err with
      | Some e => fatal (Error e)
      | None => ret tt
      end
    else ret tt in
  ret pathOptions.

Definition saveKubeconfigCmd (flags : SaveKubeconfigFlags) : Proc unit :=
  let clusterID := save_cluster flags in
  let credentialPlugin := save_credential_plugin flags in
  let! pathOptions := prepareKubeconfigFile flags in
  let! starting := clientcmd_GetStartingConfig pathOptions in
  match starting with
  | inr err => fatal (Error err)
  | inl currentKubeConfig =>
    let! newKubeConfig := fetchKubeConfigFromProvider clusterID in
    let! currentKubeConfig :=
      mergeKubeConfig credentialPlugin clusterID
        currentKubeConfig newKubeConfig in
    let! err := clientcmd_ModifyConfig pathOptions currentKubeConfig in
    match err with
    | Some e => fatal (Error e)
    | None => ret tt
    end
  end.

End Commands.

(** Two worlds that differ in the diagnostic stream at most. *)
Definition quiet (w w' : World) : Prop :=
  fs w' = fs w /\ stdout w' = stdout w /\ net w' = net w /\
  ticks w' = ticks w /\ KUBECONFIG w' = KUBECONFIG w.

Section Requests.

Context `{Ext : Externals}.

(** The two requests of [fetchKubeConfigFromProvider], lines 228 to 232 and
    236 to 240. *)
Definition renewRequest (id : string) : request :=
  {| uri := path_Join [apiPaasServiceBase; id; "renew_credentials"];
     method := MethodPatch |}.

Definition serviceRequest (id : string) : request :=
  {| uri := path_Join [apiPaasServiceBase; id]; method := MethodGet |}.

(** The path save-kubeconfig settles on (lines 46 to 52): the flag, or else
    [KUBECONFIG]. *)
Definition chosenKubeconfig (flags : SaveKubeconfigFlags) (w : World) : string :=
  if nonempty (save_kubeconfig flags) then save_kubeconfig flags
  else KUBECONFIG w.

(** The record exec-credential builds from the first user of a fetched
    bundle (lines 177 to 196), for the clock reading [now]. *)
Definition renewedCredential (u : kubeConfigUser) (now : Time)
  : ExecCredential :=
  {| Kind := "ExecCredential";
     APIVersion := SchemeGroupVersion_String;
     Status := Some
       {| ClientKeyData := fst (DecodeString (UserClientKeyData (User u)));
          ClientCertificateData :=
            fst (DecodeString (UserClientCertificateData (User u)));
          ExpirationTimestamp := Some (Time_Add now time_Hour) |} |}.

End Requests.

(** A stream after [fmt.Println(err)] under [if err != nil]. *)
Definition printed (out : string) (err : option error) : string :=
  match err with
  | Some e => out +:+ Sprintln [Error e]
  | None => out
  end.

(** ** A concrete instance

    Runs of the commands need the libraries to compute.  [Sample] supplies
    them for the inputs used further down: a decoder for standard base64, a
    JSON rendering of [ExecCredential] in the way [metav1.Time] prints
    (RFC 3339, whole seconds, UTC), and YAML documents, cache files and
    kubeconfig files given by the values they stand for. *)
Module Sample.

(** *** encoding/base64, StdEncoding *)

Definition code (c : ascii) : Z := Z.of_N (N_of_ascii c).

Definition b64_value (c : ascii) : option Z :=
  let n := code c in
  if (65 <=? n) && (n <=? 90) then Some (n - 65)
  else if (97 <=? n) && (n <=? 122) then Some (n - 71)
  else if (48 <=? n) && (n <=? 57) then Some (n + 4)
  else if n =? 43 then Some 62
  else if n =? 47 then Some 63
  else None.

Definition is_pad (c : ascii) : bool := code c =? 61.
Definition is_line_break (c : ascii) : bool := (code c =? 10) || (code c =? 13).
Definition byte_of (n : Z) : ascii := ascii_of_N (Z.to_N (n mod 256)).

Fixpoint strip_line_breaks (s : string) : string :=
  match s with
  | EmptyString => EmptyString
  | String c rest =>
    if is_line_break c then strip_line_breaks rest
    else String c (strip_line_breaks rest)
  end.

Definition after_padding (rest : string) (pos : nat) : option nat :=
  match rest with
  | EmptyString => None
  | String _ _ => Some (pos + 4)%nat
  end.

(** The quanta of four characters from [pos] on: the bytes decoded and the
    offset of the corrupt input, if any. *)
Fixpoint decode_from (s : string) (pos : nat) : bytes * option nat :=
  match s with
  | EmptyString => (EmptyString, None)
  | String a s1 =>
    match b64_value a with
    | None => (EmptyString, Some pos)
    | Some va =>
      match s1 with
      | EmptyString => (EmptyString, Some pos)
      | String b s2 =>
        match b64_value b with
        | None => (EmptyString, Some (pos + 1)%nat)
        | Some vb =>
          let b0 := byte_of (va * 4 + vb / 16) in
          match s2 with
          | EmptyString => (EmptyString, Some pos)
          | String c s3 =>
            if is_pad c then
              match s3 with
              | EmptyString => (EmptyString, Some (pos + 3)%nat)
              | String d s4 =>
                if is_pad d
                then (String b0 EmptyString, after_padding s4 pos)
                else (EmptyString, Some (pos + 3)%nat)
              end
            else
              match b64_value c with
              | None => (EmptyString, Some (pos + 2)%nat)
              | Some vc =>
                let b1 := byte_of (vb * 16 + vc / 4) in
                match s3 with
                | EmptyString => (EmptyString, Some pos)
                | String d s4 =>
                  if is_pad d
                  then (String b0 (String b1 EmptyString), after_padding s4 pos)
                  else
                    match b64_value d with
                    | None => (EmptyString, Some (pos + 3)%nat)
                    | Some vd =>
                      let b2 := byte_of (vc * 64 + vd) in
                      let '(out, err) := decode_from s4 (pos + 4)%nat in
                      (String b0 (String b1 (String b2 out)), err)
                    end
                end
              end
          end
        end
      end
    end
  end.

Definition CorruptInputError (offset : nat) : error :=
  ErrOther ("illegal base64 data at input byte " +:+ pretty offset).

(** Line breaks are skipped; offsets count the characters that remain. *)
Definition base64_decode (s : string) : bytes * option error :=
  let '(out, err) := decode_from (strip_line_breaks s) 0 in
  (out, CorruptInputError <$> err).

(** *** encoding/json on ExecCredential *)

Definition dq : string := String (ascii_of_nat 34) EmptyString.
Definition quoted (s : string) : string := dq +:+ s +:+ dq.
Definition member (key value : string) : string := quoted key +:+ ":" +:+ value.

Definition digits2 (n : Z) : string :=
  if n <? 10 then "0" +:+ pretty n else pretty n.

Definition digits4 (n : Z) : string :=
  if n <? 10 then "000" +:+ pretty n
  else if n <? 100 then "00" +:+ pretty n
  else if n <? 1000 then "0" +:+ pretty n
  else pretty n.

(** The civil date of a day number counted from January 1, year 1. *)
Definition civil (day : Z) : Z * Z * Z :=
  let z := day + 306 in
  let era := z / 146097 in
  let doe := z - era * 146097 in
  let yoe := (doe - doe / 1460 + doe / 36524 - doe / 146096) / 365 in
  let doy := doe - (365 * yoe + yoe / 4 - yoe / 100) in
  let mp := (5 * doy + 2) / 153 in
  let d := doy - (153 * mp + 2) / 5 + 1 in
  let m := if mp <? 10 then mp + 3 else mp - 9 in
  let y := yoe + era * 400 in
  (if m <=? 2 then y + 1 else y, m, d).

Definition RFC3339 (t : Time) : string :=
  let secs := t / 1000000000 in
  let '(y, m, d) := civil (secs / 86400) in
  let rest := secs mod 86400 in
  digits4 y +:+ "-" +:+ digits2 m +:+ "-" +:+ digits2 d +:+ "T" +:+
  digits2 (rest / 3600) +:+ ":" +:+ digits2 (rest mod 3600 / 60) +:+ ":" +:+
  digits2 (rest mod 60) +:+ "Z".

Definition status_members (st : ExecCredentialStatus) : list string :=
  match ExpirationTimestamp st with
  | Some t => [member "expirationTimestamp" (quoted (RFC3339 t))]
  | None => []
  end ++
  (if nonempty (ClientCertificateData st)
   then [member "clientCertificateData" (quoted (ClientCertificateData st))]
   else []) ++
  (if nonempty (ClientKeyData st)
   then [member "clientKeyData" (quoted (ClientKeyData st))]
   else []).

Fixpoint join (sep : string) (items : list string) : string :=
  match items with
  | [] => EmptyString
  | [a] => a
  | a :: rest => a +:+ sep +:+ join sep rest
  end.

Definition object (members : list string) : string :=
  "{" +:+ join "," members +:+ "}".

Definition render (ec : ExecCredential) : string :=
  object
    ((if nonempty (Kind ec) then [member "kind" (quoted (Kind ec))] else []) ++
     (if nonempty (APIVersion ec)
      then [member "apiVersion" (quoted (APIVersion ec))] else []) ++
     [member "spec" (object [])] ++
     match Status ec with
     | Some st => [member "status" (object (status_members st))]
     | None => []
     end).

(** [MarshalIndent] with an empty prefix: one member per line, nested
    members one indent deeper. *)
Definition object_indented (indent inner : string) (members : list string)
  : string :=
  match members with
  | [] => "{}"
  | _ =>
    "{" +:+ newline +:+ inner +:+ indent +:+
    join ("," +:+ newline +:+ inner +:+ indent) members +:+
    newline +:+ inner +:+ "}"
  end.

Definition member_indented (key value : string) : string :=
  quoted key +:+ ": " +:+ value.

Definition status_members_indented (st : ExecCredentialStatus) : list string :=
  match ExpirationTimestamp st with
  | Some t => [member_indented "expirationTimestamp" (quoted (RFC3339 t))]
  | None => []
  end ++
  (if nonempty (ClientCertificateData st)
   then [member_indented "clientCertificateData"
           (quoted (ClientCertificateData st))]
   else []) ++
  (if nonempty (ClientKeyData st)
   then [member_indented "clientKeyData" (quoted (ClientKeyData st))]
   else []).

Definition render_indented (indent : string) (ec : ExecCredential) : string :=
  object_indented indent EmptyString
    ((if nonempty (Kind ec)
      then [member_indented "kind" (quoted (Kind ec))] else []) ++
     (if nonempty (APIVersion ec)
      then [member_indented "apiVersion" (quoted (APIVersion ec))] else []) ++
     [member_indented "spec" (object_indented indent indent [])] ++
     match Status ec with
     | Some st =>
       [member_indented "status"
          (object_indented indent indent (status_members_indented st))]
     | None => []
     end).

(** January 1, 2030, 00:00:00 UTC. *)
Definition T0 : Time := 64029052800 * 1000000000.
Definition second : Duration := 1000000000.

Definition credential (expiration : option Time) : ExecCredential :=
  {| Kind := "ExecCredential";
     APIVersion := SchemeGroupVersion_String;
     Status := Some {| ExpirationTimestamp := expiration;
                       ClientCertificateData := "CERT";
                       ClientKeyData := "KEY" |} |}.

(** The credentials whose cache files the decoder knows: expiring at [T0],
    ten minutes after it, one second before it, and without an expiration. *)
Definition cached : list ExecCredential :=
  [credential (Some T0);
   credential (Some (T0 + 600 * second));
   credential (Some (T0 - second));
   credential None].

Definition cache_file (ec : ExecCredential) : string := render ec +:+ newline.

(** What [{}] decodes to. *)
Definition no_status : ExecCredential :=
  {| Kind := EmptyString; APIVersion := EmptyString; Status := None |}.

Definition decode_credential (data : string) : option ExecCredential + error :=
  if String.eqb data "{}" then
    inl (Some no_status)
  else if String.eqb data "null" then inl None
  else
    match List.find (fun ec => String.eqb data (cache_file ec)) cached with
    | Some ec => inl (Some ec)
    | None => inr (ErrOther "invalid character in cache file")
    end.

Definition encode_credential (ec : ExecCredential) : string + error :=
  inl (cache_file ec).

Definition marshal_indent (ec : ExecCredential) (prefix indent : string)
  : bytes * option error :=
  (render_indented indent ec, None).

(** *** The provider and its kubeconfig documents *)

Definition bundle (users : list kubeConfigUser) : kubeConfig :=
  {| Clusters :=
       [{| ClusterName := "gsk-abc";
           Cluster := {| Server := "https://abc.k8s.example:6443";
                         CertificateAuthorityData := "Q0E=" |} |}];
     Users := users;
     CurrentContext := "gsk-abc" |}.

Definition admin (certificate key : string) : kubeConfigUser :=
  {| UserName := "gsk-abc-admin";
     User := {| UserClientCertificateData := certificate;
                UserClientKeyData := key |} |}.

(** Service ["abc"] answers with well-formed credentials, ["nousers"] with a
    document that lists no user, ["badkey"] with a client key that is not
    base64. *)
Definition documents : list (string * kubeConfig) :=
  [("kubeconfig of abc", bundle [admin "Q0VSVA==" "S0VZ"]);
   ("kubeconfig of nousers", bundle []);
   ("kubeconfig of badkey", bundle [admin "Q0VSVA==" "%%%"])].

Definition unmarshal_kubeconfig (text : string) : kubeConfig * option error :=
  match List.find (fun d => String.eqb text (fst d)) documents with
  | Some d => (snd d, None)
  | None => (kubeConfig_zero, Some (ErrOther "yaml: unmarshal errors"))
  end.

Definition base : string := "/objects/paas/services".

Definition slash_join (parts : list string) : string := join "/" parts.

Definition service (id : string) : request :=
  {| uri := slash_join [base; id]; method := MethodGet |}.

Definition provider (sent : list request) (r : request) : PaaSService + error :=
  match method r with
  | MethodPatch => inl {| Properties := {| Credentials := [] |} |}
  | MethodGet =>
    match List.find (fun id => String.eqb (uri r) (uri (service id)))
            ["abc"; "nousers"; "badkey"] with
    | Some id =>
      inl {| Properties :=
               {| Credentials := [{| KubeConfig := "kubeconfig of " +:+ id |}] |} |}
    | None => inr (ErrOther "404 Not Found")
    end
  end.

(** *** clientcmd, on absent and empty kubeconfig files *)

Definition empty_config : api_Config :=
  {| cfg_Clusters := ∅; cfg_AuthInfos := ∅; cfg_Contexts := ∅;
     cfg_CurrentContext := EmptyString |}.

Definition kubeconfig_file (o : PathOptions) (env : string) : string :=
  if nonempty env then env else GlobalFile o.

Definition starting_config (o : PathOptions) (env : string)
    (files : gmap string string) : api_Config + error :=
  match files !! kubeconfig_file o env with
  | None => inl empty_config
  | Some data =>
    if nonempty data
    then inr (ErrOther "error loading config file")
    else inl empty_config
  end.

Definition modify_config (o : PathOptions) (c : api_Config) (env : string)
    (files : gmap string string) : gmap string string * option error :=
  (<[kubeconfig_file o env :=
       "current-context: " +:+ cfg_CurrentContext c +:+ newline]> files,
   None).

(** [filepath.Dir] on a clean path: what precedes the last separator. *)
Fixpoint before_last_slash (s : string) : option string :=
  match s with
  | EmptyString => None
  | String c rest =>
    match before_last_slash rest with
    | Some dir => Some (String c dir)
    | None => if code c =? 47 then Some EmptyString else None
    end
  end.

Definition dir_of (s : string) : string :=
  match before_last_slash s with
  | None => "."
  | Some dir => if nonempty dir then dir else "/"
  end.

Definition cfgDir : string := "/home/user/.config/gscloud".

#[export] Instance externals : Externals :=
  {| cfgFile := cfgDir +:+ "/config.yaml";
     account := "default";
     apiPaasServiceBase := base;
     cliPath := "/usr/local/bin/gscloud";
     path_Join := slash_join;
     filepath_Join := slash_join;
     filepath_Dir := dir_of;
     filepath_Abs := fun p => p;
     DecodeString := base64_decode;
     json_Decode := decode_credential;
     json_Encode := encode_credential;
     json_MarshalIndent := marshal_indent;
     yaml_Unmarshal := unmarshal_kubeconfig;
     RecommendedHomeFile := "/home/user/.kube/config";
     GetStartingConfig := starting_config;
     ModifyConfig := modify_config;
     clock := fun n => T0 + Z.of_nat n * second;
     respond := provider |}.

(** A machine without cache or kubeconfig, and one with a cache file for
    cluster ["abc"]. *)
Definition fresh : World :=
  {| fs := ∅; stdout := EmptyString; stderr := EmptyString;
     KUBECONFIG := EmptyString; net := []; ticks := 0 |}.

Definition cache_path (id : string) : string :=
  cfgDir +:+ "/cache/exec-credential/" +:+ id +:+ ".json".

Definition with_cache (data : string) : World :=
  with_fs fresh {[ cache_path "abc" := data ]}.

Definition exec_credential (id : string) : ExecCredentialFlags :=
  {| exec_kubeconfig := EmptyString; exec_cluster := id |}.

Definition abc : ExecCredentialFlags := exec_credential "abc".

(** Cached credentials that expire ten minutes after the first clock
    reading, one second before it, and exactly at it. *)
Definition live : ExecCredential := credential (Some (T0 + 600 * second)).
Definition lapsed : ExecCredential := credential (Some (T0 - second)).
Definition due : ExecCredential := credential (Some T0).

Definition kubeconfig : string := "/home/user/.kube/config".

Definition save_kubeconfig_to (id : string) (plugin : bool)
  : SaveKubeconfigFlags :=
  {| save_kubeconfig := kubeconfig; save_cluster := id;
     save_credential_plugin := plugin |}.

(** The same machine with a clock that starts fifty minutes before [T0]: a
    credential fetched at the first reading expires ten minutes after
    [T0]. *)
Definition earlier : Externals :=
  {| cfgFile := cfgDir +:+ "/config.yaml";
     account := "default";
     apiPaasServiceBase := base;
     cliPath := "/usr/local/bin/gscloud";
     path_Join := slash_join;
     filepath_Join := slash_join;
     filepath_Dir := dir_of;
     filepath_Abs := fun p => p;
     DecodeString := base64_decode;
     json_Decode := decode_credential;
     json_Encode := encode_credential;
     json_MarshalIndent := marshal_indent;
     yaml_Unmarshal := unmarshal_kubeconfig;
     RecommendedHomeFile := "/home/user/.kube/config";
     GetStartingConfig := starting_config;
     ModifyConfig := modify_config;
     clock := fun n => T0 - 3000 * second + Z.of_nat n * second;
     respond := provider |}.

(** A machine whose kubeconfig file does not load, and one with a cache
    file next to a kubeconfig file. *)
Definition unloadable : World :=
  with_fs fresh {[ kubeconfig := "not a kubeconfig" ]}.

Definition with_cache_and_kubeconfig (data : string) : World :=
  with_fs fresh (<[ kubeconfig := "clusters: []" ]> {[ cache_path "abc" := data ]}).

(** A configuration that already knows another cluster, user and context. *)
Definition other_cluster : api_Cluster :=
  {| api_Server := "https://other.example:6443";
     api_CertificateAuthorityData := "OTHER CA" |}.

Definition other_user : api_AuthInfo :=
  {| api_ClientCertificate := "/home/user/other.crt";
     api_ClientCertificateData := EmptyString;
     api_ClientKey := "/home/user/other.key";
     api_ClientKeyData := EmptyString;
     api_Exec := None |}.

Definition other_context : api_Context :=
  {| ctx_Cluster := "other"; ctx_AuthInfo := "other-admin" |}.

Definition existing_config : api_Config :=
  {| cfg_Clusters := {[ "other" := other_cluster ]};
     cfg_AuthInfos := {[ "other-admin" := other_user ]};
     cfg_Contexts := {[ "other" := other_context ]};
     cfg_CurrentContext := "other" |}.

Definition abc_cluster : kubeConfigCluster :=
  {| ClusterName := "gsk-abc";
     Cluster := {| Server := "https://abc.k8s.example:6443";
                   CertificateAuthorityData := "Q0E=" |} |}.

Definition abc_admin : kubeConfigUser := admin "Q0VSVA==" "S0VZ".

(** A bundle that lists a second cluster and a second user after those of
    service [abc]. *)
Definition second_cluster : kubeConfigCluster :=
  {| ClusterName := "gsk-second";
     Cluster := {| Server := "https://second.k8s.example:6443";
                   CertificateAuthorityData := "U0VDT05E" |} |}.

Definition second_user : kubeConfigUser :=
  {| UserName := "gsk-second-admin";
     User := {| UserClientCertificateData := "Q0VSVA==";
                UserClientKeyData := "S0VZ" |} |}.

Definition two_of_each : kubeConfig :=
  {| Clusters := [abc_cluster; second_cluster];
     Users := [abc_admin; second_user];
     CurrentContext := "gsk-abc" |}.

End Sample.

(** ** JSON text *)

(** An object member of that name occurs in an indented JSON text: the
    quoted name, a colon and a space, as [MarshalIndent] writes members. *)
Definition has_member (name text : string) : Prop :=
  exists before after,
    text = before +:+ (Sample.quoted name +:+ ": ") +:+ after.

(** What the struct tags of [ExecCredentialStatus] make [encoding/json] do
    with the two strings of a status: each is written as a member of its
    name unless it is empty ([omitempty]). *)
Definition writes_status_strings
    (marshal : ExecCredential -> string -> string -> bytes * option error)
  : Prop :=
  forall ec st prefix indent,
    Status ec = Some st ->
    (nonempty (ClientKeyData st) = true ->
     has_member "clientKeyData" (fst (marshal ec prefix indent))) /\
    (nonempty (ClientCertificateData st) = true ->
     has_member "clientCertificateData" (fst (marshal ec prefix indent))).


(** ** Properties *)

Ltac run :=
  cbv beta iota delta
    [bind ret deref index os_Open os_Remove os_Exit fatal report
     fmt_Println fmt_Fprintln_Stderr time_Now is_nil];
  cbn [fs stdout stderr net ticks KUBECONFIG fst snd
       with_fs with_stdout with_stderr with_net with_ticks].

Section Cache.

Context `{Ext : Externals}.

(** *** Reading the cache, case by case *)

Lemma loadCachedKubeConfig_absent id w :
  fs w !! cachedKubeConfigPath id = None ->
  loadCachedKubeConfig id w = (w, Ok (None, None)).
Proof.
  intros Habsent. unfold loadCachedKubeConfig. run.
  now rewrite Habsent.
Qed.

Lemma loadCachedKubeConfig_undecodable id w data err :
  fs w !! cachedKubeConfigPath id = Some data ->
  json_Decode data = inr err ->
  loadCachedKubeConfig id w = (w, Ok (None, Some err)).
Proof.
  intros Hfile Hdecode. unfold loadCachedKubeConfig. run.
  now rewrite Hfile, Hdecode.
Qed.

Lemma loadCachedKubeConfig_null id w data :
  fs w !! cachedKubeConfigPath id = Some data ->
  json_Decode data = inl None ->
  loadCachedKubeConfig id w = (w, Panic nil_dereference).
Proof.
  intros Hfile Hdecode. unfold loadCachedKubeConfig. run.
  now rewrite Hfile, Hdecode.
Qed.

Lemma loadCachedKubeConfig_no_status id w data ec :
  fs w !! cachedKubeConfigPath id = Some data ->
  json_Decode data = inl (Some ec) ->
  Status ec = None ->
  loadCachedKubeConfig id w = (w, Panic nil_dereference).
Proof.
  intros Hfile Hdecode Hstatus. unfold loadCachedKubeConfig. run.
  now rewrite Hfile, Hdecode, Hstatus.
Qed.

Lemma loadCachedKubeConfig_unset id w data ec st :
  fs w !! cachedKubeConfigPath id = Some data ->
  json_Decode data = inl (Some ec) ->
  Status ec = Some st ->
  metav1_IsZero (ExpirationTimestamp st) = true ->
  loadCachedKubeConfig id w =
    (with_fs w (delete (cachedKubeConfigPath id) (fs w)), Ok (None, None)).
Proof.
  intros Hfile Hdecode Hstatus Hzero. unfold loadCachedKubeConfig. run.
  rewrite Hfile, Hdecode, Hstatus, Hzero. cbn. now rewrite Hfile.
Qed.

Lemma loadCachedKubeConfig_timed id w data ec st t :
  fs w !! cachedKubeConfigPath id = Some data ->
  json_Decode data = inl (Some ec) ->
  Status ec = Some st ->
  ExpirationTimestamp st = Some t ->
  t <> 0 ->
  loadCachedKubeConfig id w =
    if Time_Before t (clock (ticks w))
    then (with_fs (with_ticks w (S (ticks w)))
            (delete (cachedKubeConfigPath id) (fs w)), Ok (None, None))
    else (with_ticks w (S (ticks w)), Ok (Some ec, None)).
Proof.
  intros Hfile Hdecode Hstatus Hstamp Hnonzero.
  unfold loadCachedKubeConfig. run.
  rewrite Hfile, Hdecode, Hstatus, Hstamp. cbn.
  unfold Time_IsZero. destruct (Z.eqb_spec t 0) as [->|_]; [easy|]. cbn.
  destruct (Time_Before t (clock (ticks w))); cbn; [|reflexivity].
  now rewrite Hfile.
Qed.

Lemma quiet_refl w : quiet w w.
Proof. now repeat split. Qed.

Lemma quiet_with_stderr w s : quiet w (with_stderr w s).
Proof. now repeat split. Qed.

Lemma report_quiet err w :
  exists w', report err w = (w', Ok tt) /\ quiet w w'.
Proof.
  destruct err as [e|]; run; eexists; split; try reflexivity.
  - apply quiet_with_stderr.
  - apply quiet_refl.
Qed.

Lemma readStartingConfig_returns flags w :
  exists w', readStartingConfig flags w = (w', Ok tt) /\ quiet w w'.
Proof.
  unfold readStartingConfig, clientcmd_GetStartingConfig. run.
  apply report_quiet.
Qed.

(** C2 (the code departs from it): a cache file that is well-formed JSON but
    decodes to a record without status makes the read dereference a nil
    pointer at line 302, before the nil test of line 304 is reached: the read
    panics, and with it the whole exec-credential run. *)
Theorem cached_record_without_status_panics flags w data ec :
  fs w !! cachedKubeConfigPath (exec_cluster flags) = Some data ->
  json_Decode data = inl (Some ec) ->
  Status ec = None ->
  loadCachedKubeConfig (exec_cluster flags) w = (w, Panic nil_dereference) /\
  exists w', execCredentialCmd flags w = (w', Panic nil_dereference).
Proof.
  intros Hfile Hdecode Hstatus. split.
  - eapply loadCachedKubeConfig_no_status; eassumption.
  - destruct (readStartingConfig_returns flags w) as (w0 & Hstart & Hq).
    exists w0. unfold execCredentialCmd. run.
    destruct Hq as (Hfs & _).
    unfold lookupCachedCredential. run. rewrite Hstart.
    rewrite (loadCachedKubeConfig_no_status _ w0 data ec); try easy.
    now rewrite Hfs.
Qed.

(** C3, as amended: for a cache entry with expiration timestamp [t], set and
    not the zero time, a read no later than [t] returns the cached record
    unchanged and leaves the file; a read strictly after [t], or of an entry
    whose timestamp is zero or unset, is a cache miss that deletes the
    file. *)
Theorem cache_read_by_expiration id w data ec st :
  fs w !! cachedKubeConfigPath id = Some data ->
  json_Decode data = inl (Some ec) ->
  Status ec = Some st ->
  (forall t, ExpirationTimestamp st = Some t -> t <> 0 ->
     clock (ticks w) <= t ->
     exists w', loadCachedKubeConfig id w = (w', Ok (Some ec, None)) /\
                fs w' = fs w) /\
  (forall t, ExpirationTimestamp st = Some t -> t <> 0 ->
     t < clock (ticks w) ->
     exists w', loadCachedKubeConfig id w = (w', Ok (None, None)) /\
                fs w' = delete (cachedKubeConfigPath id) (fs w)) /\
  (metav1_IsZero (ExpirationTimestamp st) = true ->
     exists w', loadCachedKubeConfig id w = (w', Ok (None, None)) /\
                fs w' = delete (cachedKubeConfigPath id) (fs w)).
Proof.
  intros Hfile Hdecode Hstatus. repeat split.
  - intros t Hstamp Hnonzero Hnow.
    rewrite (loadCachedKubeConfig_timed id w data ec st t) by assumption.
    unfold Time_Before. destruct (Z.ltb_spec t (clock (ticks w))); [lia|].
    now eexists.
  - intros t Hstamp Hnonzero Hnow.
    rewrite (loadCachedKubeConfig_timed id w data ec st t) by assumption.
    unfold Time_Before. destruct (Z.ltb_spec t (clock (ticks w))); [|lia].
    now eexists.
  - intros Hzero.
    rewrite (loadCachedKubeConfig_unset id w data ec st) by assumption.
    now eexists.
Qed.

(** C4, as amended: a cache file whose record is stale (its expiration
    timestamp unset, zero or before the time of the read) is deleted by the
    read, so that the next read finds no entry; a file that does not parse is
    reported with the decoder's error and left where it is. *)
Theorem stale_cache_deleted_on_read id w data :
  fs w !! cachedKubeConfigPath id = Some data ->
  (forall ec st,
     json_Decode data = inl (Some ec) ->
     Status ec = Some st ->
     metav1_IsZero (ExpirationTimestamp st) = true \/
     (exists t, ExpirationTimestamp st = Some t /\ t < clock (ticks w)) ->
     exists w', loadCachedKubeConfig id w = (w', Ok (None, None)) /\
                fs w' !! cachedKubeConfigPath id = None /\
                loadCachedKubeConfig id w' = (w', Ok (None, None))) /\
  (forall err,
     json_Decode data = inr err ->
     loadCachedKubeConfig id w = (w, Ok (None, Some err)) /\
     fs w !! cachedKubeConfigPath id = Some data).
Proof.
  intros Hfile. split.
  - intros ec st Hdecode Hstatus Hstale.
    assert (exists w', loadCachedKubeConfig id w = (w', Ok (None, None)) /\
                       fs w' = delete (cachedKubeConfigPath id) (fs w))
      as (w' & Hload & Hfs).
    { destruct (metav1_IsZero (ExpirationTimestamp st)) eqn:Hzero.
      - rewrite (loadCachedKubeConfig_unset id w data ec st) by assumption.
        now eexists.
      - destruct Hstale as [|(t & Hstamp & Hnow)]; [easy|].
        rewrite (loadCachedKubeConfig_timed id w data ec st t); try assumption.
        + unfold Time_Before.
          destruct (Z.ltb_spec t (clock (ticks w))); [|lia]. now eexists.
        + intros ->. now rewrite Hstamp in Hzero. }
    assert (fs w' !! cachedKubeConfigPath id = None) as Hgone
      by (rewrite Hfs; apply lookup_delete_eq).
    exists w'. repeat split; try assumption.
    now apply loadCachedKubeConfig_absent.
  - intros err Hdecode. split; [|assumption].
    eapply loadCachedKubeConfig_undecodable; eassumption.
Qed.

(** *** What the steps of exec-credential leave alone *)

Lemma loadCachedKubeConfig_streams id w w' r :
  loadCachedKubeConfig id w = (w', r) ->
  stdout w' = stdout w /\ stderr w' = stderr w /\ net w' = net w.
Proof.
  unfold loadCachedKubeConfig. run.
  destruct (fs w !! cachedKubeConfigPath id) as [data|] eqn:Hfile; cbn.
  2: { intros [= <- _]. easy. }
  destruct (json_Decode data) as [[ec|]|err]; cbn.
  2,3: intros [= <- _]; easy.
  destruct (Status ec) as [st|]; cbn.
  2: { intros [= <- _]. easy. }
  destruct (metav1_IsZero (ExpirationTimestamp st)); cbn.
  { rewrite Hfile. intros [= <- _]. easy. }
  destruct (ExpirationTimestamp st) as [t|]; cbn.
  2: { intros [= <- _]. easy. }
  destruct (Time_Before t (clock (ticks w))); cbn.
  - rewrite Hfile. intros [= <- _]. easy.
  - intros [= <- _]. easy.
Qed.

Lemma lookupCachedCredential_streams flags w w' r :
  lookupCachedCredential flags w = (w', r) ->
  stdout w' = stdout w /\ net w' = net w.
Proof.
  unfold lookupCachedCredential. run.
  destruct (readStartingConfig_returns flags w) as (w0 & -> & Hq0).
  destruct (loadCachedKubeConfig _ w0) as [w1 r1] eqn:Hload.
  apply loadCachedKubeConfig_streams in Hload as (Hout & _ & Hnet).
  destruct Hq0 as (_ & Hout0 & Hnet0 & _).
  destruct r1 as [[ec err]| |]; cbn.
  - destruct err; cbn; intros [= <- _]; split; cbn; congruence.
  - intros [= <- _]. split; congruence.
  - intros [= <- _]. split; congruence.
Qed.

Lemma execute_local r w w' res :
  execute r w = (w', res) ->
  fs w' = fs w /\ stdout w' = stdout w /\ ticks w' = ticks w.
Proof.
  unfold execute. destruct (respond _ _); intros [= <- _]; easy.
Qed.

Lemma fetchKubeConfigFromProvider_local id w w' r :
  fetchKubeConfigFromProvider id w = (w', r) ->
  fs w' = fs w /\ stdout w' = stdout w /\ ticks w' = ticks w.
Proof.
  unfold fetchKubeConfigFromProvider. run.
  destruct (execute _ w) as [w1 r1] eqn:H1.
  apply execute_local in H1 as (Hfs1 & Hout1 & Ht1).
  destruct r1 as [s1| |]; try (intros [= <- _]; easy).
  destruct (execute _ w1) as [w2 r2] eqn:H2.
  apply execute_local in H2 as (Hfs2 & Hout2 & Ht2).
  destruct r2 as [s2| |]; try (intros [= <- _]; repeat split; congruence).
  destruct (Credentials (Properties s2)) as [|credential rest].
  { intros [= <- _]. repeat split; congruence. }
  destruct (yaml_Unmarshal _) as [kc err].
  destruct err; cbn; intros [= <- _]; repeat split; cbn; congruence.
Qed.

(** C1 (the code departs from it): when the cache has nothing for the
    cluster and the provider's bundle lists no user, the run ends normally
    with its error line appended to standard output (line 205 prints with
    [fmt.Println]); nothing is added to the diagnostic stream at that
    point. *)
Theorem no_user_error_is_printed_to_stdout flags w w1 w2 kc :
  lookupCachedCredential flags w = (w1, Ok None) ->
  fetchKubeConfigFromProvider (exec_cluster flags) w1 = (w2, Ok kc) ->
  Users kc = [] ->
  exists w',
    execCredentialCmd flags w = (w', Ok tt) /\
    stdout w' =
      stdout w +:+
      Sprintln
        ["Error: Could not retrieve kubeconfig from provider for account: ";
         account] /\
    stderr w' = stderr w2.
Proof.
  intros Hlookup Hfetch Husers.
  unfold execCredentialCmd. run. rewrite Hlookup, Hfetch, Husers. cbn.
  eexists. split; [reflexivity|]. cbn.
  apply lookupCachedCredential_streams in Hlookup as (Hout1 & _).
  apply fetchKubeConfigFromProvider_local in Hfetch as (_ & Hout2 & _).
  split; [|reflexivity]. congruence.
Qed.

(** C6, as amended: on a cache miss that fetches a bundle with a user, the
    command builds a record whose expiration is one hour after the clock
    reading taken once the bundle is fetched and whose key and certificate
    are the bytes that base64 decoding yields for the first user, writes the
    encoder's text for that record to the cache file of the cluster, and
    prints the indented JSON document of that record last on standard
    output; the document has a [clientKeyData] member when the decoded key
    is not empty and a [clientCertificateData] member when the decoded
    certificate is not empty, and it is all that is printed there when both
    fields are well-formed base64. *)
Theorem cache_miss_builds_caches_and_prints flags w w1 w2 kc u :
  lookupCachedCredential flags w = (w1, Ok None) ->
  fetchKubeConfigFromProvider (exec_cluster flags) w1 = (w2, Ok kc) ->
  Users kc !! 0%nat = Some u ->
  0 <= clock (ticks w2) ->
  (forall ec, exists text, json_Encode ec = inl text) ->
  writes_status_strings json_MarshalIndent ->
  let key := DecodeString (UserClientKeyData (User u)) in
  let certificate := DecodeString (UserClientCertificateData (User u)) in
  exists w' ec st text,
    execCredentialCmd flags w = (w', Ok tt) /\
    Status ec = Some st /\
    ExpirationTimestamp st = Some (clock (ticks w2) + time_Hour) /\
    ClientKeyData st = fst key /\
    ClientCertificateData st = fst certificate /\
    json_Encode ec = inl text /\
    fs w' = <[cachedKubeConfigPath (exec_cluster flags) := text]> (fs w1) /\
    let document := fst (json_MarshalIndent ec "" "    ") in
    stdout w' =
      printed (printed (stdout w) (snd key)) (snd certificate) +:+
      Sprintln [document] /\
    (snd key = None -> snd certificate = None ->
     stdout w' = stdout w +:+ Sprintln [document]) /\
    (nonempty (fst key) = true -> has_member "clientKeyData" document) /\
    (nonempty (fst certificate) = true ->
     has_member "clientCertificateData" document).
Proof.
  intros Hlookup Hfetch Huser Hclock Hencode Hmarshal key certificate.
  subst key certificate.
  destruct (DecodeString (UserClientKeyData (User u)))
    as [keyData keyErr] eqn:Hkey.
  destruct (DecodeString (UserClientCertificateData (User u)))
    as [certData certErr] eqn:Hcert.
  pose (st := {| ClientKeyData := keyData;
                 ClientCertificateData := certData;
                 ExpirationTimestamp :=
                   Some (Time_Add (clock (ticks w2)) time_Hour) |}).
  pose (ec := {| Kind := "ExecCredential";
                 APIVersion := SchemeGroupVersion_String;
                 Status := Some st |}).
  destruct (Hencode ec) as (text & Htext).
  destruct (Hmarshal ec st "" "    " eq_refl) as (HkeyMember & HcertMember).
  apply lookupCachedCredential_streams in Hlookup as Hstreams.
  destruct Hstreams as (Hout1 & _).
  apply fetchKubeConfigFromProvider_local in Hfetch as Hlocal.
  destruct Hlocal as (Hfs2 & Hout2 & _).
  assert ((length (Users kc) =? 0)%nat = false) as Hlen
    by (destruct (Users kc); [easy|reflexivity]).
  assert (Time_IsZero (Time_Add (clock (ticks w2)) time_Hour) = false)
    as Hlive.
  { unfold Time_IsZero, Time_Add, time_Hour.
    destruct (Z.eqb_spec (clock (ticks w2) + 3600 * 1000000000) 0); [lia|easy]. }
  enough (exists w',
            execCredentialCmd flags w = (w', Ok tt) /\
            fs w' = <[cachedKubeConfigPath (exec_cluster flags) := text]> (fs w1) /\
            stdout w' =
              printed (printed (stdout w) keyErr) certErr +:+
              Sprintln [fst (json_MarshalIndent ec "" "    ")])
    as (w' & Hrun & Hfs & Hout).
  { exists w', ec, st, text. cbn [fst snd].
    do 6 (split; [easy|]). split; [exact Hfs|]. cbv zeta.
    split; [exact Hout|]. split; [|split; assumption].
    intros -> ->. exact Hout. }
  unfold execCredentialCmd. run. rewrite Hlookup, Hfetch, Hlen, Huser.
  rewrite Hkey, Hcert.
  unfold cacheKubeConfig, os_MkdirAll, os_OpenFile_trunc, file_Write. run.
  subst ec st.
  destruct keyErr, certErr; cbn; rewrite Hlive, Htext; cbn;
    destruct (json_MarshalIndent _ "" "    ") as [json jsonErr];
    destruct jsonErr; cbn; (eexists; split; [reflexivity|]); cbn;
    rewrite insert_insert_eq, Hfs2, Hout2, Hout1; now split.
Qed.

(** C9: with a cache file for the cluster whose expiration lies in the
    future, the run prints the indented rendering of the cached record on
    standard output and sends no request to the provider; the cache file
    stays as it is. *)
Theorem cache_hit_prints_without_network flags w data ec st t :
  fs w !! cachedKubeConfigPath (exec_cluster flags) = Some data ->
  json_Decode data = inl (Some ec) ->
  Status ec = Some st ->
  ExpirationTimestamp st = Some t ->
  0 <= clock (ticks w) ->
  clock (ticks w) < t ->
  exists w',
    execCredentialCmd flags w = (w', Ok tt) /\
    net w' = net w /\
    fs w' = fs w /\
    stdout w' = stdout w +:+ Sprintln [fst (json_MarshalIndent ec "" "    ")].
Proof.
  intros Hfile Hdecode Hstatus Hstamp Hera Hfuture.
  destruct (readStartingConfig_returns flags w)
    as (w0 & Hstart & Hfs0 & Hout0 & Hnet0 & Hticks0 & _).
  unfold execCredentialCmd, lookupCachedCredential. run. rewrite Hstart.
  rewrite (loadCachedKubeConfig_timed _ w0 data ec st t);
    try assumption; try lia; [|now rewrite Hfs0].
  rewrite Hticks0. unfold Time_Before.
  destruct (Z.ltb_spec t (clock (ticks w))); [lia|]. cbn.
  destruct (json_MarshalIndent ec "" "    ") as [json jsonErr].
  destruct jsonErr; cbn; eexists; (split; [reflexivity|]); cbn;
    repeat split; congruence.
Qed.

End Cache.

Section Merge.

Context `{Ext : Externals}.

(** *** What the steps of save-kubeconfig leave alone *)

Lemma mergeKubeConfig_local plugin id cur kc w w' r :
  mergeKubeConfig plugin id cur kc w = (w', r) ->
  fs w' = fs w /\ stdout w' = stdout w /\ net w' = net w.
Proof.
  unfold mergeKubeConfig. run.
  destruct (length (Clusters kc) =? 0)%nat; cbn.
  { intros [= <- _]. easy. }
  destruct (length (Users kc) =? 0)%nat; cbn.
  { intros [= <- _]. easy. }
  destruct (Clusters kc !! 0%nat) as [c|]; [|intros [= <- _]; easy].
  destruct (Users kc !! 0%nat) as [u|]; [|intros [= <- _]; easy].
  destruct (DecodeString (CertificateAuthorityData (Cluster c)))
    as [ca [e|]]; cbn.
  { intros [= <- _]. easy. }
  destruct plugin; cbn.
  { intros [= <- _]. easy. }
  destruct (DecodeString (UserClientCertificateData (User u)))
    as [cert [e|]]; cbn.
  { intros [= <- _]. easy. }
  destruct (DecodeString (UserClientKeyData (User u))) as [key [e|]]; cbn.
  { intros [= <- _]. easy. }
  intros [= <- _]. easy.
Qed.

Lemma prepareKubeconfigFile_creates_at_most flags w w0 r :
  prepareKubeconfigFile flags w = (w0, r) ->
  fs w0 = fs w \/
  exists path, fs w !! path = None /\ fs w0 = <[path := EmptyString]> (fs w).
Proof.
  unfold prepareKubeconfigFile, os_Getenv_KUBECONFIG, fileExists, os_Create.
  run.
  destruct (nonempty (save_kubeconfig flags)); cbn.
  - destruct (nonempty (save_kubeconfig flags)); cbn.
    + destruct (fs w !! save_kubeconfig flags) eqn:Hfile; cbn.
      * intros [= <- _]. now left.
      * intros [= <- _]. right. now exists (save_kubeconfig flags).
    + intros [= <- _]. now left.
  - destruct (nonempty (KUBECONFIG w)); cbn.
    + destruct (fs w !! KUBECONFIG w) eqn:Hfile; cbn.
      * intros [= <- _]. now left.
      * intros [= <- _]. right. now exists (KUBECONFIG w).
    + intros [= <- _]. now left.
Qed.

(** C5: once the starting configuration is loaded, a fetched bundle without
    clusters or without users ends save-kubeconfig with exit status 1 and the
    invalid-kubeconfig line on the diagnostic stream; and whenever the merge
    exits, on that or on a decoding failure, the command exits there with the
    file system as the choice of the kubeconfig file left it, which is the
    initial one but for an empty file created where the chosen path named
    nothing. *)
Theorem failed_merge_writes_no_kubeconfig flags w w0 pathOptions cur w1 kc :
  prepareKubeconfigFile flags w = (w0, Ok pathOptions) ->
  GetStartingConfig pathOptions (KUBECONFIG w0) (fs w0) = inl cur ->
  fetchKubeConfigFromProvider (save_cluster flags) w0 = (w1, Ok kc) ->
  (Clusters kc = [] \/ Users kc = [] ->
   saveKubeconfigCmd flags w =
     (with_stderr w1 (stderr w1 +:+ Sprintln ["Error: Invaild kubeconfig"]),
      Exit 1)) /\
  (forall w2 code,
     mergeKubeConfig (save_credential_plugin flags) (save_cluster flags)
       cur kc w1 = (w2, Exit code) ->
     saveKubeconfigCmd flags w = (w2, Exit code) /\ fs w2 = fs w0) /\
  (fs w0 = fs w \/
   exists path, fs w !! path = None /\ fs w0 = <[path := EmptyString]> (fs w)).
Proof.
  intros Hprepare Hstart Hfetch.
  assert (forall w2 code,
     mergeKubeConfig (save_credential_plugin flags) (save_cluster flags)
       cur kc w1 = (w2, Exit code) ->
     saveKubeconfigCmd flags w = (w2, Exit code) /\ fs w2 = fs w0) as Hexit.
  { intros w2 code Hmerge. split.
    - unfold saveKubeconfigCmd, clientcmd_GetStartingConfig. run.
      now rewrite Hprepare, Hstart, Hfetch, Hmerge.
    - apply mergeKubeConfig_local in Hmerge as (-> & _).
      now apply fetchKubeConfigFromProvider_local in Hfetch as (-> & _). }
  split; [|split].
  - intros Hinvalid. apply Hexit.
    unfold mergeKubeConfig. run.
    destruct Hinvalid as [-> | ->]; cbn; [reflexivity|].
    now rewrite orb_true_r.
  - exact Hexit.
  - eapply prepareKubeconfigFile_creates_at_most; eassumption.
Qed.

(** C7, as amended: with a first cluster and a first user in the bundle, a
    certificate authority that is not base64 ends the merge with exit status
    1 and the decoder's error on the diagnostic stream in both modes; a
    client certificate or a client key that is not base64 does so in the
    embedded mode; the exec-plugin mode does not decode the client
    certificate and key, and the merge goes through whatever they are. *)
Theorem malformed_base64_fails_the_merge id cur kc c u w :
  Clusters kc !! 0%nat = Some c ->
  Users kc !! 0%nat = Some u ->
  let failure e := (with_stderr w (stderr w +:+ Sprintln [Error e]), Exit 1) in
  let authority := snd (DecodeString (CertificateAuthorityData (Cluster c))) in
  let certificate := snd (DecodeString (UserClientCertificateData (User u))) in
  let key := snd (DecodeString (UserClientKeyData (User u))) in
  (forall plugin e, authority = Some e ->
     mergeKubeConfig plugin id cur kc w = failure e) /\
  (forall e, authority = None -> certificate = Some e ->
     mergeKubeConfig false id cur kc w = failure e) /\
  (forall e, authority = None -> certificate = None -> key = Some e ->
     mergeKubeConfig false id cur kc w = failure e) /\
  (authority = None ->
     exists merged, mergeKubeConfig true id cur kc w = (w, Ok merged)).
Proof.
  intros Hc Hu failure authority certificate key.
  assert ((length (Clusters kc) =? 0)%nat = false) as Hlc
    by (destruct (Clusters kc); [easy|reflexivity]).
  assert ((length (Users kc) =? 0)%nat = false) as Hlu
    by (destruct (Users kc); [easy|reflexivity]).
  subst failure authority certificate key.
  unfold mergeKubeConfig. run. rewrite Hlc, Hlu, Hc, Hu. cbn.
  destruct (DecodeString (CertificateAuthorityData (Cluster c)))
    as [ca caErr].
  destruct (DecodeString (UserClientCertificateData (User u)))
    as [cert certErr].
  destruct (DecodeString (UserClientKeyData (User u))) as [keyData keyErr].
  cbn. repeat split.
  - now intros plugin e ->.
  - now intros e -> ->.
  - now intros e -> -> ->.
  - intros ->. now eexists.
Qed.

(** C8: a merge that succeeds, repeated with the same bundle in the same
    mode on the configuration it produced, succeeds again and produces that
    same configuration. *)
Theorem merge_twice_is_merge_once plugin id cur kc w w1 merged :
  mergeKubeConfig plugin id cur kc w = (w1, Ok merged) ->
  mergeKubeConfig plugin id merged kc w1 = (w1, Ok merged).
Proof.
  unfold mergeKubeConfig. run.
  destruct (length (Clusters kc) =? 0)%nat; cbn; [easy|].
  destruct (length (Users kc) =? 0)%nat; cbn; [easy|].
  destruct (Clusters kc !! 0%nat) as [c|]; [|easy].
  destruct (Users kc !! 0%nat) as [u|]; [|easy].
  destruct (DecodeString (CertificateAuthorityData (Cluster c)))
    as [ca [e|]]; cbn; [easy|].
  destruct plugin; cbn.
  - intros [= <- <-]. cbn.
    unfold set_CurrentContext, set_Contexts, set_AuthInfos, set_Clusters.
    cbn. now rewrite !insert_insert_eq.
  - destruct (DecodeString (UserClientCertificateData (User u)))
      as [cert [e|]]; cbn; [easy|].
    destruct (DecodeString (UserClientKeyData (User u)))
      as [key [e|]]; cbn; [easy|].
    intros [= <- <-]. cbn.
    unfold set_CurrentContext, set_Contexts, set_AuthInfos, set_Clusters.
    cbn. now rewrite !insert_insert_eq.
Qed.

(** C10: of a bundle with several clusters or several users, the merge uses
    the first cluster and the first user only.  It runs exactly as on the
    bundle cut down to them, diagnostics included; it succeeds, without
    output, whenever the fields of these two entries that the mode needs
    decode; and the configuration it then produces is the existing one with
    the first cluster put under its name, the first user under its name, the
    context of the bundle binding the two, and that context made current:
    nothing of a later cluster or user enters it. *)
Theorem merge_uses_first_entries_only plugin id cur c cs u us context w :
  let kc :=
    {| Clusters := c :: cs; Users := u :: us; CurrentContext := context |} in
  let decodes field := snd (DecodeString field) = None in
  mergeKubeConfig plugin id cur kc w =
    mergeKubeConfig plugin id cur
      {| Clusters := [c]; Users := [u]; CurrentContext := context |} w /\
  (decodes (CertificateAuthorityData (Cluster c)) ->
   plugin = true \/
   decodes (UserClientCertificateData (User u)) /\
   decodes (UserClientKeyData (User u)) ->
   exists merged, mergeKubeConfig plugin id cur kc w = (w, Ok merged)) /\
  (forall w' merged,
     mergeKubeConfig plugin id cur kc w = (w', Ok merged) ->
     w' = w /\
     cfg_Clusters merged =
       <[ClusterName c :=
           {| api_Server := Server (Cluster c);
              api_CertificateAuthorityData :=
                fst (DecodeString (CertificateAuthorityData (Cluster c))) |}]>
         (cfg_Clusters cur) /\
     cfg_AuthInfos merged =
       <[UserName u :=
           if plugin then
             {| api_ClientCertificate := EmptyString;
                api_ClientCertificateData := EmptyString;
                api_ClientKey := EmptyString;
                api_ClientKeyData := EmptyString;
                api_Exec := Some
                  {| exec_Command := cliPath;
                     exec_Args := execArgs id;
                     exec_APIVersion := SchemeGroupVersion_String |} |}
           else
             {| api_ClientCertificate := EmptyString;
                api_ClientCertificateData :=
                  fst (DecodeString (UserClientCertificateData (User u)));
                api_ClientKey := EmptyString;
                api_ClientKeyData :=
                  fst (DecodeString (UserClientKeyData (User u)));
                api_Exec := None |}]>
         (cfg_AuthInfos cur) /\
     cfg_Contexts merged =
       <[context :=
           {| ctx_Cluster := ClusterName c; ctx_AuthInfo := UserName u |}]>
         (cfg_Contexts cur) /\
     cfg_CurrentContext merged = context).
Proof.
  intros kc decodes. subst kc decodes. split; [reflexivity|].
  unfold mergeKubeConfig. run. cbn.
  destruct (DecodeString (CertificateAuthorityData (Cluster c)))
    as [ca caErr].
  destruct (DecodeString (UserClientCertificateData (User u)))
    as [cert certErr].
  destruct (DecodeString (UserClientKeyData (User u))) as [key keyErr].
  cbn. split.
  - intros -> [-> | (-> & ->)]; cbn.
    + now eexists.
    + destruct plugin; now eexists.
  - intros w' merged.
    destruct caErr as [e|]; cbn; [discriminate|].
    destruct plugin; cbn.
    + intros [= <- <-]. cbn. now rewrite insert_insert_eq.
    + destruct certErr as [e|]; cbn; [discriminate|].
      destruct keyErr as [e|]; cbn; [discriminate|].
      intros [= <- <-]. cbn. now rewrite insert_insert_eq.
Qed.

End Merge.

Section Further.

Context `{Ext : Externals}.

(** *** The cache, beyond the claims *)

(** Whatever the read does, it prints nothing, sends nothing, and leaves
    every file but the cache file of the cluster as it is; that file it
    either keeps or deletes. *)
Theorem cache_read_touches_one_file id w w' r :
  loadCachedKubeConfig id w = (w', r) ->
  (fs w' = fs w \/ fs w' = delete (cachedKubeConfigPath id) (fs w)) /\
  (forall path, path <> cachedKubeConfigPath id ->
     fs w' !! path = fs w !! path) /\
  stdout w' = stdout w /\ stderr w' = stderr w /\ net w' = net w.
Proof.
  intros Hload.
  assert (fs w' = fs w \/ fs w' = delete (cachedKubeConfigPath id) (fs w))
    as Hfs.
  { revert Hload. unfold loadCachedKubeConfig. run.
    destruct (fs w !! cachedKubeConfigPath id) as [data|] eqn:Hfile; cbn.
    2: { intros [= <- _]. now left. }
    destruct (json_Decode data) as [[ec|]|err]; cbn.
    2,3: intros [= <- _]; now left.
    destruct (Status ec) as [st|]; cbn.
    2: { intros [= <- _]. now left. }
    destruct (metav1_IsZero (ExpirationTimestamp st)); cbn.
    { rewrite Hfile. intros [= <- _]. now right. }
    destruct (ExpirationTimestamp st) as [t|]; cbn.
    2: { intros [= <- _]. now left. }
    destruct (Time_Before t (clock (ticks w))); cbn.
    - rewrite Hfile. intros [= <- _]. now right.
    - intros [= <- _]. now left. }
  split; [exact Hfs|]. split.
  - intros path Hother. destruct Hfs as [-> | ->]; [reflexivity|].
    now apply lookup_delete_ne.
  - eapply loadCachedKubeConfig_streams; eassumption.
Qed.

(** A record that the read returns is never expired: it comes with no
    error, from a cache file that is still in place, and its expiration is
    set, not the zero time and not before the clock reading taken. *)
Theorem cache_hit_is_unexpired id w w' ec err :
  loadCachedKubeConfig id w = (w', Ok (Some ec, err)) ->
  err = None /\
  fs w' = fs w /\
  exists data st t,
    fs w !! cachedKubeConfigPath id = Some data /\
    json_Decode data = inl (Some ec) /\
    Status ec = Some st /\
    ExpirationTimestamp st = Some t /\
    t <> 0 /\
    t >= clock (ticks w).
Proof.
  unfold loadCachedKubeConfig. run.
  destruct (fs w !! cachedKubeConfigPath id) as [data|] eqn:Hfile; cbn.
  2: { intros [=]. }
  destruct (json_Decode data) as [[ec'|]|e] eqn:Hdecode; cbn.
  2,3: intros [=].
  destruct (Status ec') as [st|] eqn:Hstatus; cbn.
  2: { intros [=]. }
  destruct (metav1_IsZero (ExpirationTimestamp st)) eqn:Hzero; cbn.
  { rewrite Hfile. intros [=]. }
  destruct (ExpirationTimestamp st) as [t|] eqn:Hstamp; cbn.
  2: { cbn in Hzero. discriminate. }
  destruct (Time_Before t (clock (ticks w))) eqn:Hbefore; cbn.
  { rewrite Hfile. intros [=]. }
  intros [= <- <- <-]. repeat split.
  exists data, st, t. repeat split; try assumption.
  - cbn in Hzero. unfold Time_IsZero in Hzero. lia.
  - unfold Time_Before in Hbefore. lia.
Qed.

(** Writing the cache changes no file but the cache file of the cluster,
    prints nothing and sends nothing; a record whose expiration is unset or
    the zero time is not written at all. *)
Theorem cache_write_touches_one_file id ec w w' r :
  cacheKubeConfig id ec w = (w', r) ->
  (forall path, path <> cachedKubeConfigPath id ->
     fs w' !! path = fs w !! path) /\
  stdout w' = stdout w /\ stderr w' = stderr w /\ net w' = net w /\
  (forall st, Status ec = Some st ->
     metav1_IsZero (ExpirationTimestamp st) = true ->
     w' = w /\ r = Ok None).
Proof.
  unfold cacheKubeConfig, os_MkdirAll, os_OpenFile_trunc, file_Write. run.
  destruct (Status ec) as [st0|]; cbn.
  2: { intros [= <- <-]. split; [easy|]. do 3 (split; [easy|]). easy. }
  destruct (metav1_IsZero (ExpirationTimestamp st0)) eqn:Hzero; cbn.
  { intros [= <- <-]. split; [easy|]. do 3 (split; [easy|]). easy. }
  assert (forall st, Some st0 = Some st ->
            metav1_IsZero (ExpirationTimestamp st) = true ->
            w' = w /\ r = Ok None) as Hskip
    by (intros st [= <-]; congruence).
  destruct (json_Encode ec) as [text|e]; cbn; intros [= <- <-]; cbn;
    (split; [|easy]); intros path Hother; now rewrite ?lookup_insert_ne.
Qed.

(** A record with a live expiration, written to the cache and read back no
    later than the decoded expiration, is what the decoder makes of the
    encoder's text; the read leaves the file in place. *)
Theorem cached_credential_is_read_back id ec st text ec' st' t' w :
  Status ec = Some st ->
  metav1_IsZero (ExpirationTimestamp st) = false ->
  json_Encode ec = inl text ->
  json_Decode text = inl (Some ec') ->
  Status ec' = Some st' ->
  ExpirationTimestamp st' = Some t' ->
  t' <> 0 ->
  clock (ticks w) <= t' ->
  exists w1 w2,
    cacheKubeConfig id ec w = (w1, Ok None) /\
    fs w1 !! cachedKubeConfigPath id = Some text /\
    loadCachedKubeConfig id w1 = (w2, Ok (Some ec', None)) /\
    fs w2 = fs w1.
Proof.
  intros Hstatus Hlive Hencode Hdecode Hstatus' Hstamp' Hnonzero Hnow.
  eexists _, _. split.
  { unfold cacheKubeConfig, os_MkdirAll, os_OpenFile_trunc, file_Write. run.
    rewrite Hstatus. cbn. rewrite Hlive, Hencode. cbn. reflexivity. }
  cbn. rewrite insert_insert_eq.
  assert (<[cachedKubeConfigPath id := text]> (fs w)
            !! cachedKubeConfigPath id = Some text) as Hfile
    by apply lookup_insert_eq.
  split; [exact Hfile|].
  rewrite (loadCachedKubeConfig_timed id _ text ec' st' t');
    try assumption.
  cbn. unfold Time_Before.
  destruct (Z.ltb_spec t' (clock (ticks w))); [lia|]. now split.
Qed.

(** *** The provider, beyond the claims *)

Lemma execute_net r w w' res :
  execute r w = (w', res) -> net w' = (net w ++ [r])%list.
Proof.
  unfold execute. destruct (respond _ _); intros [= <- _]; reflexivity.
Qed.

Lemma execute_never_panics r w w' msg : execute r w <> (w', Panic msg).
Proof. unfold execute. destruct (respond _ _); intros [=]. Qed.

Lemma fetchKubeConfigFromProvider_never_panics id w w' msg :
  fetchKubeConfigFromProvider id w <> (w', Panic msg).
Proof.
  unfold fetchKubeConfigFromProvider. run.
  destruct (execute _ w) as [w1 [s1| |]] eqn:H1.
  - destruct (execute _ w1) as [w2 [s2| |]] eqn:H2.
    + destruct (Credentials (Properties s2)); [discriminate|].
      destruct (yaml_Unmarshal _) as [kc [e|]]; cbn; discriminate.
    + discriminate.
    + now apply execute_never_panics in H2.
  - discriminate.
  - now apply execute_never_panics in H1.
Qed.

(** The fetch always asks for the renewal first, and asks for the service
    only after that; a fetch that returns has sent exactly these two
    requests, in this order. *)
Theorem fetch_renews_before_it_reads id w w' r :
  fetchKubeConfigFromProvider id w = (w', r) ->
  (net w' = (net w ++ [renewRequest id])%list \/
   net w' = (net w ++ [renewRequest id; serviceRequest id])%list) /\
  (forall kc, r = Ok kc ->
     net w' = (net w ++ [renewRequest id; serviceRequest id])%list).
Proof.
  unfold fetchKubeConfigFromProvider. run.
  fold (renewRequest id) (serviceRequest id).
  destruct (execute (renewRequest id) w) as [w1 r1] eqn:H1.
  apply execute_net in H1 as Hnet1.
  destruct r1 as [s1| |]; try (intros [= <- <-]; split; [now left|easy]).
  destruct (execute (serviceRequest id) w1) as [w2 r2] eqn:H2.
  apply execute_net in H2 as Hnet2.
  assert (net w2 = (net w ++ [renewRequest id; serviceRequest id])%list) as Hnet
    by (rewrite Hnet2, Hnet1, <- app_assoc; reflexivity).
  destruct r2 as [s2| |]; try (intros [= <- <-]; split; [now right|easy]).
  destruct (Credentials (Properties s2)) as [|credential rest].
  { intros [= <- <-]. split; [now right|easy]. }
  destruct (yaml_Unmarshal _) as [kc [e|]]; cbn; intros [= <- <-]; cbn;
    (split; [now right|easy]).
Qed.

(** When both requests are answered: without credentials in the answer the
    fetch returns the zero bundle and reports nothing; otherwise it returns
    what the YAML decoder makes of the first credential, the later ones
    unread, and a decoding error goes to the diagnostic stream without
    stopping the fetch. *)
Theorem fetch_decodes_the_first_credential id w renewed service :
  respond (net w) (renewRequest id) = inl renewed ->
  respond (net w ++ [renewRequest id])%list (serviceRequest id) = inl service ->
  let sent := with_net w (net w ++ [renewRequest id; serviceRequest id])%list in
  (Credentials (Properties service) = [] ->
     fetchKubeConfigFromProvider id w = (sent, Ok kubeConfig_zero)) /\
  (forall credential rest,
     Credentials (Properties service) = credential :: rest ->
     fetchKubeConfigFromProvider id w =
       (with_stderr sent
          (printed (stderr w) (snd (yaml_Unmarshal (KubeConfig credential)))),
        Ok (fst (yaml_Unmarshal (KubeConfig credential))))).
Proof.
  intros Hrenew Hservice sent. subst sent.
  unfold fetchKubeConfigFromProvider, execute. run.
  fold (renewRequest id) (serviceRequest id).
  rewrite Hrenew. cbn. rewrite Hservice. cbn.
  rewrite <- app_assoc. cbn. split.
  - now intros ->.
  - intros credential rest ->.
    destruct (yaml_Unmarshal (KubeConfig credential)) as [kc [e|]]; cbn.
    + reflexivity.
    + unfold with_stderr, with_net. cbn. destruct w; reflexivity.
Qed.

(** *** exec-credential, beyond the claims *)

Lemma loadCachedKubeConfig_outcomes id w w' r :
  loadCachedKubeConfig id w = (w', r) ->
  (exists v, r = Ok v) \/
  (exists msg data,
     r = Panic msg /\
     fs w !! cachedKubeConfigPath id = Some data /\
     (json_Decode data = inl None \/
      exists ec, json_Decode data = inl (Some ec) /\ Status ec = None)).
Proof.
  unfold loadCachedKubeConfig. run.
  destruct (fs w !! cachedKubeConfigPath id) as [data|] eqn:Hfile; cbn.
  2: { intros [= _ <-]. left. now eexists. }
  destruct (json_Decode data) as [[ec|]|err] eqn:Hdecode; cbn.
  2: { intros [= _ <-]. right. exists nil_dereference, data. now auto. }
  2: { intros [= _ <-]. left. now eexists. }
  destruct (Status ec) as [st|] eqn:Hstatus; cbn.
  2: { intros [= _ <-]. right. exists nil_dereference, data.
       repeat split. right. now exists ec. }
  destruct (ExpirationTimestamp st) as [t|]; cbn.
  2: { rewrite Hfile. intros [= _ <-]. left. now eexists. }
  destruct (Time_IsZero t); cbn.
  { rewrite Hfile. intros [= _ <-]. left. now eexists. }
  destruct (Time_Before t (clock (ticks w))); cbn.
  - rewrite Hfile. intros [= _ <-]. left. now eexists.
  - intros [= _ <-]. left. now eexists.
Qed.

(** The run after a cache miss and a fetch that brings a user. *)
Lemma execCredentialCmd_renews flags w w1 w2 kc u text :
  lookupCachedCredential flags w = (w1, Ok None) ->
  fetchKubeConfigFromProvider (exec_cluster flags) w1 = (w2, Ok kc) ->
  Users kc !! 0%nat = Some u ->
  0 <= clock (ticks w2) ->
  json_Encode (renewedCredential u (clock (ticks w2))) = inl text ->
  exists w',
    execCredentialCmd flags w = (w', Ok tt) /\
    fs w' = <[cachedKubeConfigPath (exec_cluster flags) := text]> (fs w1) /\
    net w' = net w2 /\
    ticks w' = S (ticks w2) /\
    stdout w' =
      printed
        (printed (stdout w)
           (snd (DecodeString (UserClientKeyData (User u)))))
        (snd (DecodeString (UserClientCertificateData (User u)))) +:+
      Sprintln
        [fst (json_MarshalIndent
                (renewedCredential u (clock (ticks w2))) "" "    ")].
Proof.
  intros Hlookup Hfetch Huser Hclock Htext.
  apply lookupCachedCredential_streams in Hlookup as Hstreams.
  destruct Hstreams as (Hout1 & _).
  apply fetchKubeConfigFromProvider_local in Hfetch as Hlocal.
  destruct Hlocal as (Hfs2 & Hout2 & _).
  assert ((length (Users kc) =? 0)%nat = false) as Hlen
    by (destruct (Users kc); [easy|reflexivity]).
  assert (Time_IsZero (Time_Add (clock (ticks w2)) time_Hour) = false)
    as Hlive.
  { unfold Time_IsZero, Time_Add, time_Hour.
    destruct (Z.eqb_spec (clock (ticks w2) + 3600 * 1000000000) 0); [lia|easy]. }
  revert Htext. unfold renewedCredential.
  destruct (DecodeString (UserClientKeyData (User u)))
    as [keyData keyErr] eqn:Hkey.
  destruct (DecodeString (UserClientCertificateData (User u)))
    as [certData certErr] eqn:Hcert.
  cbn [fst snd]. intros Htext.
  unfold execCredentialCmd. run. rewrite Hlookup, Hfetch, Hlen, Huser.
  rewrite Hkey, Hcert.
  unfold cacheKubeConfig, os_MkdirAll, os_OpenFile_trunc, file_Write. run.
  destruct keyErr, certErr; cbn; rewrite Hlive, Htext; cbn;
    destruct (json_MarshalIndent _ "" "    ") as [json jsonErr];
    destruct jsonErr; cbn; (eexists; split; [reflexivity|]); cbn;
    rewrite insert_insert_eq, Hfs2, Hout2, Hout1; now repeat split.
Qed.

(** The run on a cache file that is read as a hit. *)
Lemma execCredentialCmd_serves_cache flags w data ec st t :
  fs w !! cachedKubeConfigPath (exec_cluster flags) = Some data ->
  json_Decode data = inl (Some ec) ->
  Status ec = Some st ->
  ExpirationTimestamp st = Some t ->
  t <> 0 ->
  clock (ticks w) <= t ->
  exists w',
    execCredentialCmd flags w = (w', Ok tt) /\
    net w' = net w /\
    fs w' = fs w /\
    stdout w' = stdout w +:+ Sprintln [fst (json_MarshalIndent ec "" "    ")].
Proof.
  intros Hfile Hdecode Hstatus Hstamp Hnonzero Hnow.
  destruct (readStartingConfig_returns flags w)
    as (w0 & Hstart & Hfs0 & Hout0 & Hnet0 & Hticks0 & _).
  unfold execCredentialCmd, lookupCachedCredential. run. rewrite Hstart.
  rewrite (loadCachedKubeConfig_timed _ w0 data ec st t);
    try assumption; [|now rewrite Hfs0].
  rewrite Hticks0. unfold Time_Before.
  destruct (Z.ltb_spec t (clock (ticks w))); [lia|]. cbn.
  destruct (json_MarshalIndent ec "" "    ") as [json jsonErr].
  destruct jsonErr; cbn; eexists; (split; [reflexivity|]); cbn;
    repeat split; congruence.
Qed.

(** exec-credential panics on one kind of input only: a cache file for the
    cluster that decodes to a nil record or to a record without status. *)
Theorem exec_credential_panics_only_on_the_cache flags w w' msg :
  execCredentialCmd flags w = (w', Panic msg) ->
  exists data,
    fs w !! cachedKubeConfigPath (exec_cluster flags) = Some data /\
    (json_Decode data = inl None \/
     exists ec, json_Decode data = inl (Some ec) /\ Status ec = None).
Proof.
  destruct (readStartingConfig_returns flags w) as (w0 & Hstart & Hfs0 & _).
  unfold execCredentialCmd, lookupCachedCredential. run. rewrite Hstart.
  destruct (loadCachedKubeConfig (exec_cluster flags) w0) as [w1 r1] eqn:Hload.
  apply loadCachedKubeConfig_outcomes in Hload
    as [(v & ->) | (m & data & -> & Hfile & Hbad)].
  2: { intros _. exists data. now rewrite <- Hfs0. }
  destruct v as [[ec|] err]; cbn.
  - destruct err; cbn;
      destruct (json_MarshalIndent ec "" "    ") as [j [jsonErr|]];
      cbn; discriminate.
  - destruct err as [readErr|]; cbn;
      match goal with
      | |- context [fetchKubeConfigFromProvider ?id ?x] =>
        destruct (fetchKubeConfigFromProvider id x)
          as [w3 [kc| |]] eqn:Hfetch
      end;
      try discriminate;
      try (now apply fetchKubeConfigFromProvider_never_panics in Hfetch);
      (destruct (Users kc) as [|u us]; cbn; [discriminate|]);
      destruct (DecodeString (UserClientKeyData (User u))) as [k [ke|]];
      destruct (DecodeString (UserClientCertificateData (User u)))
        as [c [ce|]]; cbn;
      unfold cacheKubeConfig, os_MkdirAll, os_OpenFile_trunc, file_Write;
      run;
      destruct (Time_IsZero _); cbn;
      try (destruct (json_Encode _) as [text|encodeErr]; cbn);
      destruct (json_MarshalIndent _ "" "    ") as [j [jsonErr|]]; cbn;
      discriminate.
Qed.

(** A fetch that brings no user costs the two requests and leaves no trace
    in the cache: the files are as the cache lookup left them. *)
Theorem fetch_without_user_is_not_cached flags w w1 w2 kc :
  lookupCachedCredential flags w = (w1, Ok None) ->
  fetchKubeConfigFromProvider (exec_cluster flags) w1 = (w2, Ok kc) ->
  Users kc = [] ->
  exists w',
    execCredentialCmd flags w = (w', Ok tt) /\
    fs w' = fs w1 /\
    net w' =
      (net w ++ [renewRequest (exec_cluster flags);
                 serviceRequest (exec_cluster flags)])%list.
Proof.
  intros Hlookup Hfetch Husers.
  unfold execCredentialCmd. run. rewrite Hlookup, Hfetch, Husers. cbn.
  eexists. split; [reflexivity|]. cbn.
  apply lookupCachedCredential_streams in Hlookup as (_ & <-).
  apply fetchKubeConfigFromProvider_local in Hfetch as Hlocal.
  destruct Hlocal as (-> & _). split; [reflexivity|].
  unfold fetchKubeConfigFromProvider in Hfetch. revert Hfetch. run.
  fold (renewRequest (exec_cluster flags))
       (serviceRequest (exec_cluster flags)).
  destruct (execute (renewRequest _) w1) as [v1 r1] eqn:H1.
  apply execute_net in H1.
  destruct r1 as [s1| |]; try discriminate.
  destruct (execute (serviceRequest _) v1) as [v2 r2] eqn:H2.
  apply execute_net in H2.
  assert (net v2 = (net w1 ++ [renewRequest (exec_cluster flags);
                               serviceRequest (exec_cluster flags)])%list)
    as Hnet by (rewrite H2, H1, <- app_assoc; reflexivity).
  destruct r2 as [s2| |]; try discriminate.
  destruct (Credentials (Properties s2)); [now intros [= <- _]|].
  destruct (yaml_Unmarshal _) as [kc' [e|]]; cbn; now intros [= <- _].
Qed.

(** The credential a run fetched serves the next run: if the cache file the
    first run wrote decodes to a record whose expiration is not before the
    next clock reading, running the command again sends nothing to the
    provider and prints that record. *)
Theorem renewed_credential_serves_the_next_run
    flags w w1 w2 kc u text ec' st' t' :
  lookupCachedCredential flags w = (w1, Ok None) ->
  fetchKubeConfigFromProvider (exec_cluster flags) w1 = (w2, Ok kc) ->
  Users kc !! 0%nat = Some u ->
  0 <= clock (ticks w2) ->
  json_Encode (renewedCredential u (clock (ticks w2))) = inl text ->
  json_Decode text = inl (Some ec') ->
  Status ec' = Some st' ->
  ExpirationTimestamp st' = Some t' ->
  t' <> 0 ->
  clock (S (ticks w2)) <= t' ->
  exists w' w'',
    execCredentialCmd flags w = (w', Ok tt) /\
    execCredentialCmd flags w' = (w'', Ok tt) /\
    net w'' = net w' /\
    fs w'' = fs w' /\
    stdout w'' =
      stdout w' +:+ Sprintln [fst (json_MarshalIndent ec' "" "    ")].
Proof.
  intros Hlookup Hfetch Huser Hclock Hencode Hdecode Hstatus Hstamp
    Hnonzero Hnext.
  destruct (execCredentialCmd_renews flags w w1 w2 kc u text)
    as (w' & Hrun & Hfs & _ & Hticks & _); try assumption.
  destruct (execCredentialCmd_serves_cache flags w' text ec' st' t')
    as (w'' & Hagain & Hrest); try assumption.
  - rewrite Hfs. apply lookup_insert_eq.
  - now rewrite Hticks.
  - now exists w', w''.
Qed.

(** A cache file that does not parse does not stop exec-credential: the
    decoder's error goes to the diagnostic stream, the file counts as a miss,
    and a fetch that brings a user replaces it with the encoder's text for
    the new record. *)
Theorem unparsable_cache_is_replaced flags w data err w2 kc u text :
  fs w !! cachedKubeConfigPath (exec_cluster flags) = Some data ->
  json_Decode data = inr err ->
  exists w1,
    lookupCachedCredential flags w = (w1, Ok None) /\
    fs w1 = fs w /\
    (exists reported, stderr w1 = reported +:+ Sprintln [Error err]) /\
    (fetchKubeConfigFromProvider (exec_cluster flags) w1 = (w2, Ok kc) ->
     Users kc !! 0%nat = Some u ->
     0 <= clock (ticks w2) ->
     json_Encode (renewedCredential u (clock (ticks w2))) = inl text ->
     exists w',
       execCredentialCmd flags w = (w', Ok tt) /\
       fs w' = <[cachedKubeConfigPath (exec_cluster flags) := text]> (fs w)).
Proof.
  intros Hfile Hdecode.
  destruct (readStartingConfig_returns flags w)
    as (w0 & Hstart & Hfs0 & _).
  exists (with_stderr w0 (stderr w0 +:+ Sprintln [Error err])).
  assert (lookupCachedCredential flags w =
            (with_stderr w0 (stderr w0 +:+ Sprintln [Error err]), Ok None))
    as Hlookup.
  { unfold lookupCachedCredential. run. rewrite Hstart.
    rewrite (loadCachedKubeConfig_undecodable _ w0 data err);
      [reflexivity| now rewrite Hfs0 | assumption]. }
  split; [exact Hlookup|]. split; [exact Hfs0|].
  split; [now eexists|].
  intros Hfetch Huser Hclock Hencode.
  destruct (execCredentialCmd_renews flags w _ w2 kc u text Hlookup)
    as (w' & Hrun & Hfs & _); try assumption.
  exists w'. split; [exact Hrun|]. rewrite Hfs. cbn. now rewrite Hfs0.
Qed.

(** *** save-kubeconfig, beyond the claims *)

Lemma execute_environment r w w' res :
  execute r w = (w', res) -> KUBECONFIG w' = KUBECONFIG w.
Proof.
  unfold execute. destruct (respond _ _); intros [= <- _]; reflexivity.
Qed.

Lemma fetchKubeConfigFromProvider_environment id w w' r :
  fetchKubeConfigFromProvider id w = (w', r) ->
  KUBECONFIG w' = KUBECONFIG w.
Proof.
  unfold fetchKubeConfigFromProvider. run.
  destruct (execute _ w) as [w1 r1] eqn:H1.
  apply execute_environment in H1.
  destruct r1 as [s1| |]; try (intros [= <- _]; assumption).
  destruct (execute _ w1) as [w2 r2] eqn:H2.
  apply execute_environment in H2.
  destruct r2 as [s2| |]; try (intros [= <- _]; congruence).
  destruct (Credentials (Properties s2)); [intros [= <- _]; congruence|].
  destruct (yaml_Unmarshal _) as [kc [e|]]; cbn; intros [= <- _]; cbn;
    congruence.
Qed.

(** How the merge can end: with a configuration and no output at all, or
    with exit status 1 and exactly one more line on the diagnostic stream;
    it never panics. *)
Lemma mergeKubeConfig_outcomes plugin id cur kc w w' r :
  mergeKubeConfig plugin id cur kc w = (w', r) ->
  (exists merged, r = Ok merged /\ w' = w) \/
  (r = Exit 1 /\
   exists line, w' = with_stderr w (stderr w +:+ Sprintln [line])).
Proof.
  unfold mergeKubeConfig. run.
  destruct (length (Clusters kc) =? 0)%nat eqn:Hlc; cbn.
  { intros [= <- <-]. right. split; [reflexivity|]. now eexists. }
  destruct (length (Users kc) =? 0)%nat eqn:Hlu; cbn.
  { intros [= <- <-]. right. split; [reflexivity|]. now eexists. }
  destruct (Clusters kc !! 0%nat) as [c|] eqn:Hc.
  2: { destruct (Clusters kc); discriminate. }
  destruct (Users kc !! 0%nat) as [u|] eqn:Hu.
  2: { destruct (Users kc); discriminate. }
  destruct (DecodeString (CertificateAuthorityData (Cluster c)))
    as [ca [e|]]; cbn.
  { intros [= <- <-]. right. split; [reflexivity|]. now eexists. }
  destruct plugin; cbn.
  { intros [= <- <-]. left. now eexists. }
  destruct (DecodeString (UserClientCertificateData (User u)))
    as [cert [e|]]; cbn.
  { intros [= <- <-]. right. split; [reflexivity|]. now eexists. }
  destruct (DecodeString (UserClientKeyData (User u))) as [key [e|]]; cbn.
  { intros [= <- <-]. right. split; [reflexivity|]. now eexists. }
  intros [= <- <-]. left. now eexists.
Qed.

(** The entries of a successful merge: the cluster under its name with the
    decoded certificate authority, the context of the bundle binding that
    cluster to the user, that context as the current one, and under the
    user's name either the decoded certificate and key with no exec entry
    (embedded mode) or the exec entry alone, calling this program with
    [exec-credential --cluster] and the cluster ID (exec-plugin mode).  The
    entry of lines 85 to 88, which names the key and certificate texts as
    file paths, never survives. *)
Theorem merged_entries plugin id cur kc c u w w' merged :
  mergeKubeConfig plugin id cur kc w = (w', Ok merged) ->
  Clusters kc !! 0%nat = Some c ->
  Users kc !! 0%nat = Some u ->
  cfg_Clusters merged !! ClusterName c =
    Some {| api_Server := Server (Cluster c);
            api_CertificateAuthorityData :=
              fst (DecodeString (CertificateAuthorityData (Cluster c))) |} /\
  cfg_Contexts merged !! CurrentContext kc =
    Some {| ctx_Cluster := ClusterName c; ctx_AuthInfo := UserName u |} /\
  cfg_CurrentContext merged = CurrentContext kc /\
  cfg_AuthInfos merged !! UserName u =
    Some
      (if plugin then
         {| api_ClientCertificate := EmptyString;
            api_ClientCertificateData := EmptyString;
            api_ClientKey := EmptyString;
            api_ClientKeyData := EmptyString;
            api_Exec := Some
              {| exec_Command := cliPath;
                 exec_Args :=
                   ["--config"; cfgFile; "--account"; account; "kubernetes";
                    "cluster"; "exec-credential"; "--cluster"; id];
                 exec_APIVersion := SchemeGroupVersion_String |} |}
       else
         {| api_ClientCertificate := EmptyString;
            api_ClientCertificateData :=
              fst (DecodeString (UserClientCertificateData (User u)));
            api_ClientKey := EmptyString;
            api_ClientKeyData :=
              fst (DecodeString (UserClientKeyData (User u)));
            api_Exec := None |}).
Proof.
  intros Hmerge Hc Hu. revert Hmerge.
  assert ((length (Clusters kc) =? 0)%nat = false) as Hlc
    by (destruct (Clusters kc); [easy|reflexivity]).
  assert ((length (Users kc) =? 0)%nat = false) as Hlu
    by (destruct (Users kc); [easy|reflexivity]).
  unfold mergeKubeConfig. run. rewrite Hlc, Hlu, Hc, Hu. cbn.
  destruct (DecodeString (CertificateAuthorityData (Cluster c)))
    as [ca [e|]]; cbn; [discriminate|].
  destruct plugin; cbn.
  { intros [= _ <-]. cbn. now rewrite !lookup_insert_eq. }
  destruct (DecodeString (UserClientCertificateData (User u)))
    as [cert [e|]]; cbn; [discriminate|].
  destruct (DecodeString (UserClientKeyData (User u)))
    as [key [e|]]; cbn; [discriminate|].
  intros [= _ <-]. cbn. now rewrite !lookup_insert_eq.
Qed.

(** A successful merge leaves every cluster, user and context of the
    existing configuration that goes by another name than the three it sets
    exactly as it was. *)
Theorem merge_keeps_the_other_entries plugin id cur kc c u w w' merged :
  mergeKubeConfig plugin id cur kc w = (w', Ok merged) ->
  Clusters kc !! 0%nat = Some c ->
  Users kc !! 0%nat = Some u ->
  (forall name, name <> ClusterName c ->
     cfg_Clusters merged !! name = cfg_Clusters cur !! name) /\
  (forall name, name <> UserName u ->
     cfg_AuthInfos merged !! name = cfg_AuthInfos cur !! name) /\
  (forall name, name <> CurrentContext kc ->
     cfg_Contexts merged !! name = cfg_Contexts cur !! name).
Proof.
  intros Hmerge Hc Hu. revert Hmerge.
  assert ((length (Clusters kc) =? 0)%nat = false) as Hlc
    by (destruct (Clusters kc); [easy|reflexivity]).
  assert ((length (Users kc) =? 0)%nat = false) as Hlu
    by (destruct (Users kc); [easy|reflexivity]).
  unfold mergeKubeConfig. run. rewrite Hlc, Hlu, Hc, Hu. cbn.
  destruct (DecodeString (CertificateAuthorityData (Cluster c)))
    as [ca [e|]]; cbn; [discriminate|].
  destruct plugin; cbn.
  { intros [= _ <-]. cbn.
    repeat split; intros name Hother; now rewrite !lookup_insert_ne. }
  destruct (DecodeString (UserClientCertificateData (User u)))
    as [cert [e|]]; cbn; [discriminate|].
  destruct (DecodeString (UserClientKeyData (User u)))
    as [key [e|]]; cbn; [discriminate|].
  intros [= _ <-]. cbn.
  repeat split; intros name Hother; now rewrite !lookup_insert_ne.
Qed.

(** The merge succeeds exactly on a bundle with a first cluster and a first
    user whose certificate authority decodes and, in embedded mode, whose
    client certificate and key decode too; then it prints nothing.  In every
    other case it ends with exit status 1 after one line on the diagnostic
    stream; it never panics. *)
Theorem merge_succeeds_exactly_when_decodable plugin id cur kc w :
  let decodes field := snd (DecodeString field) = None in
  ((exists merged, mergeKubeConfig plugin id cur kc w = (w, Ok merged)) <->
   exists c u,
     Clusters kc !! 0%nat = Some c /\
     Users kc !! 0%nat = Some u /\
     decodes (CertificateAuthorityData (Cluster c)) /\
     (plugin = true \/
      decodes (UserClientCertificateData (User u)) /\
      decodes (UserClientKeyData (User u)))) /\
  ((exists merged, mergeKubeConfig plugin id cur kc w = (w, Ok merged)) \/
   exists line,
     mergeKubeConfig plugin id cur kc w =
       (with_stderr w (stderr w +:+ Sprintln [line]), Exit 1)).
Proof.
  intros decodes. subst decodes. split.
  - unfold mergeKubeConfig. run.
    destruct (Clusters kc) as [|c cs]; cbn.
    { split; [intros (m & [=])|intros (c & u & [=] & _)]. }
    destruct (Users kc) as [|u us]; cbn.
    { split; [intros (m & [=])|intros (c' & u & _ & [=] & _)]. }
    destruct (DecodeString (CertificateAuthorityData (Cluster c)))
      as [ca [e|]] eqn:Hca; cbn.
    { split; [intros (m & [=])|].
      intros (c' & u' & [= <-] & [= <-] & Hdec & _).
      now rewrite Hca in Hdec. }
    destruct plugin; cbn.
    { split; [|now eexists]. intros _. exists c, u.
      rewrite Hca. cbn. do 3 (split; [reflexivity|]). now left. }
    destruct (DecodeString (UserClientCertificateData (User u)))
      as [cert [e|]] eqn:Hcert; cbn.
    { split; [intros (m & [=])|].
      intros (c' & u' & [= <-] & [= <-] & _ & [[=] | (Hdec & _)]).
      now rewrite Hcert in Hdec. }
    destruct (DecodeString (UserClientKeyData (User u)))
      as [key [e|]] eqn:Hkey; cbn.
    { split; [intros (m & [=])|].
      intros (c' & u' & [= <-] & [= <-] & _ & [[=] | (_ & Hdec)]).
      now rewrite Hkey in Hdec. }
    split; [|now eexists]. intros _. exists c, u.
    rewrite Hca, Hcert, Hkey. cbn. do 3 (split; [reflexivity|]).
    right. now split.
  - destruct (mergeKubeConfig plugin id cur kc w) as [w' r] eqn:Hmerge.
    apply mergeKubeConfig_outcomes in Hmerge
      as [(merged & -> & ->) | (-> & line & ->)].
    + left. now eexists.
    + right. now eexists.
Qed.

Lemma prepareKubeconfigFile_quiet flags w w0 r :
  prepareKubeconfigFile flags w = (w0, r) ->
  stdout w0 = stdout w /\ stderr w0 = stderr w /\ net w0 = net w /\
  ticks w0 = ticks w /\ KUBECONFIG w0 = KUBECONFIG w.
Proof.
  unfold prepareKubeconfigFile, os_Getenv_KUBECONFIG, fileExists, os_Create.
  run.
  destruct (nonempty (save_kubeconfig flags)); cbn.
  - destruct (nonempty (save_kubeconfig flags)); cbn.
    + destruct (fs w !! save_kubeconfig flags); cbn; now intros [= <- _].
    + now intros [= <- _].
  - destruct (nonempty (KUBECONFIG w)); cbn.
    + destruct (fs w !! KUBECONFIG w); cbn; now intros [= <- _].
    + now intros [= <- _].
Qed.

(** Choosing the kubeconfig file: the [--kubeconfig] flag, when given,
    becomes the global file of the path options, which otherwise keep the
    library's default even when [KUBECONFIG] is set; the chosen path (the
    flag, or else [KUBECONFIG]), when there is one, names a file afterwards;
    a file that existed keeps its content, and no other path is touched. *)
Theorem kubeconfig_file_is_prepared flags w w0 pathOptions :
  prepareKubeconfigFile flags w = (w0, Ok pathOptions) ->
  GlobalFile pathOptions =
    (if nonempty (save_kubeconfig flags) then save_kubeconfig flags
     else RecommendedHomeFile) /\
  (nonempty (chosenKubeconfig flags w) = true ->
   is_Some (fs w0 !! chosenKubeconfig flags w)) /\
  (forall path data, fs w !! path = Some data -> fs w0 !! path = Some data) /\
  (forall path, path <> chosenKubeconfig flags w ->
     fs w0 !! path = fs w !! path).
Proof.
  unfold prepareKubeconfigFile, chosenKubeconfig, os_Getenv_KUBECONFIG,
    fileExists, os_Create.
  run.
  destruct (nonempty (save_kubeconfig flags)) eqn:Hflag; cbn.
  - rewrite Hflag. cbn.
    destruct (fs w !! save_kubeconfig flags) as [old|] eqn:Hfile; cbn;
      intros [= <- <-]; cbn; repeat split; try easy.
    + intros _. apply lookup_insert_is_Some. now left.
    + intros path data Hpath. rewrite lookup_insert_ne; [assumption|].
      intros <-. congruence.
    + intros path Hother. now rewrite lookup_insert_ne.
  - destruct (nonempty (KUBECONFIG w)) eqn:Henv; cbn.
    + destruct (fs w !! KUBECONFIG w) as [old|] eqn:Hfile; cbn;
        intros [= <- <-]; cbn; repeat split; try easy.
      * intros _. apply lookup_insert_is_Some. now left.
      * intros path data Hpath. rewrite lookup_insert_ne; [assumption|].
        intros <-. congruence.
      * intros path Hother. now rewrite lookup_insert_ne.
    + intros [= <- <-]. repeat split; easy.
Qed.

(** save-kubeconfig never writes to standard output and never reads the
    clock, however it ends. *)
Theorem save_kubeconfig_keeps_stdout flags w :
  stdout (fst (saveKubeconfigCmd flags w)) = stdout w /\
  ticks (fst (saveKubeconfigCmd flags w)) = ticks w.
Proof.
  unfold saveKubeconfigCmd, clientcmd_GetStartingConfig,
    clientcmd_ModifyConfig.
  run.
  destruct (prepareKubeconfigFile flags w) as [w0 r0] eqn:Hprepare.
  apply prepareKubeconfigFile_quiet in Hprepare
    as (Hout0 & _ & _ & Hticks0 & _).
  destruct r0 as [pathOptions| |]; cbn; [|easy..].
  destruct (GetStartingConfig _ _ _) as [cur|err]; cbn; [|easy].
  destruct (fetchKubeConfigFromProvider _ w0) as [w1 r1] eqn:Hfetch.
  apply fetchKubeConfigFromProvider_local in Hfetch as (_ & Hout1 & Hticks1).
  destruct r1 as [kc| |]; cbn; [|split; congruence..].
  destruct (mergeKubeConfig _ _ cur kc w1) as [w2 r2] eqn:Hmerge.
  apply mergeKubeConfig_outcomes in Hmerge
    as [(merged & -> & ->) | (-> & line & ->)]; cbn.
  - destruct (ModifyConfig _ _ _ _) as [files [e|]]; cbn; split; congruence.
  - split; congruence.
Qed.

(** When the starting configuration cannot be loaded, save-kubeconfig
    reports the error and exits with status 1 before anything is asked of
    the provider. *)
Theorem unloadable_kubeconfig_stops_before_the_fetch
    flags w w0 pathOptions err :
  prepareKubeconfigFile flags w = (w0, Ok pathOptions) ->
  GetStartingConfig pathOptions (KUBECONFIG w0) (fs w0) = inr err ->
  saveKubeconfigCmd flags w =
    (with_stderr w0 (stderr w0 +:+ Sprintln [Error err]), Exit 1) /\
  net w0 = net w.
Proof.
  intros Hprepare Hstart. split.
  - unfold saveKubeconfigCmd, clientcmd_GetStartingConfig. run.
    now rewrite Hprepare, Hstart.
  - now apply prepareKubeconfigFile_quiet in Hprepare.
Qed.

(** When the configuration loads, the fetch returns and the merge succeeds,
    what save-kubeconfig hands to [ModifyConfig] is the merged configuration,
    on the files as the choice of the kubeconfig file left them; the command
    returns if [ModifyConfig] does, and otherwise reports its error and
    exits with status 1. *)
Theorem save_kubeconfig_writes_the_merge
    flags w w0 pathOptions cur w1 kc w2 merged :
  prepareKubeconfigFile flags w = (w0, Ok pathOptions) ->
  GetStartingConfig pathOptions (KUBECONFIG w0) (fs w0) = inl cur ->
  fetchKubeConfigFromProvider (save_cluster flags) w0 = (w1, Ok kc) ->
  mergeKubeConfig (save_credential_plugin flags) (save_cluster flags)
    cur kc w1 = (w2, Ok merged) ->
  let written := ModifyConfig pathOptions merged (KUBECONFIG w) (fs w0) in
  saveKubeconfigCmd flags w =
    match snd written with
    | None => (with_fs w1 (fst written), Ok tt)
    | Some e =>
      (with_stderr (with_fs w1 (fst written))
         (stderr w1 +:+ Sprintln [Error e]), Exit 1)
    end.
Proof.
  intros Hprepare Hstart Hfetch Hmerge written. subst written.
  apply prepareKubeconfigFile_quiet in Hprepare as Hquiet.
  destruct Hquiet as (_ & _ & _ & _ & Henv0).
  apply fetchKubeConfigFromProvider_local in Hfetch as Hlocal.
  destruct Hlocal as (Hfs1 & _).
  apply fetchKubeConfigFromProvider_environment in Hfetch as Henv1.
  apply mergeKubeConfig_outcomes in Hmerge as Hshape.
  destruct Hshape as [(m & _ & ->) | ([=] & _)].
  unfold saveKubeconfigCmd, clientcmd_GetStartingConfig,
    clientcmd_ModifyConfig.
  run. rewrite Hprepare, Hstart, Hfetch, Hmerge.
  rewrite Henv1, Henv0, Hfs1.
  destruct (ModifyConfig pathOptions merged (KUBECONFIG w) (fs w0))
    as [files [e|]]; reflexivity.
Qed.

Lemma fetchKubeConfigFromProvider_sent id w w' kc :
  fetchKubeConfigFromProvider id w = (w', Ok kc) ->
  net w' = (net w ++ [renewRequest id; serviceRequest id])%list.
Proof.
  unfold fetchKubeConfigFromProvider. run.
  fold (renewRequest id) (serviceRequest id).
  destruct (execute (renewRequest id) w) as [w1 r1] eqn:H1.
  apply execute_net in H1.
  destruct r1 as [s1| |]; try discriminate.
  destruct (execute (serviceRequest id) w1) as [w2 r2] eqn:H2.
  apply execute_net in H2.
  assert (net w2 = (net w ++ [renewRequest id; serviceRequest id])%list)
    as Hnet by (rewrite H2, H1, <- app_assoc; reflexivity).
  destruct r2 as [s2| |]; try discriminate.
  destruct (Credentials (Properties s2)); [now intros [= <- _]|].
  destruct (yaml_Unmarshal _) as [kc' [e|]]; cbn; now intros [= <- _].
Qed.

(** A kubeconfig that does not load does not stop exec-credential, unlike
    save-kubeconfig: the loader's error goes to the diagnostic stream and a
    cached credential that has not expired is printed all the same. *)
Theorem exec_credential_goes_on_without_kubeconfig
    flags w err data ec st t :
  GetStartingConfig
    (if nonempty (exec_kubeconfig flags)
     then {| GlobalFile := exec_kubeconfig flags |}
     else clientcmd_NewDefaultPathOptions)
    (KUBECONFIG w) (fs w) = inr err ->
  fs w !! cachedKubeConfigPath (exec_cluster flags) = Some data ->
  json_Decode data = inl (Some ec) ->
  Status ec = Some st ->
  ExpirationTimestamp st = Some t ->
  t <> 0 ->
  clock (ticks w) <= t ->
  exists w',
    execCredentialCmd flags w = (w', Ok tt) /\
    stdout w' =
      stdout w +:+ Sprintln [fst (json_MarshalIndent ec "" "    ")] /\
    stderr w' =
      printed (stderr w +:+ Sprintln [Error err])
        (snd (json_MarshalIndent ec "" "    ")).
Proof.
  intros Hstart Hfile Hdecode Hstatus Hstamp Hnonzero Hnow.
  unfold execCredentialCmd, lookupCachedCredential, readStartingConfig,
    clientcmd_GetStartingConfig.
  run. rewrite Hstart. cbn.
  rewrite (loadCachedKubeConfig_timed _ _ data ec st t);
    try assumption.
  cbn. unfold Time_Before.
  destruct (Z.ltb_spec t (clock (ticks w))); [lia|]. cbn.
  destruct (json_MarshalIndent ec "" "    ") as [json [jsonErr|]]; cbn;
    eexists; (split; [reflexivity|]); now split.
Qed.

(** A cache file whose record has lapsed is renewed in one run: the read
    deletes it, the two requests go to the provider, and with a user in the
    bundle the cache file of the cluster then holds the encoder's text for
    the new record, every other file being as before. *)
Theorem expired_cache_is_renewed flags w data ec st w2 kc u text :
  fs w !! cachedKubeConfigPath (exec_cluster flags) = Some data ->
  json_Decode data = inl (Some ec) ->
  Status ec = Some st ->
  metav1_IsZero (ExpirationTimestamp st) = true \/
  (exists t, ExpirationTimestamp st = Some t /\ t < clock (ticks w)) ->
  exists w1,
    lookupCachedCredential flags w = (w1, Ok None) /\
    fs w1 = delete (cachedKubeConfigPath (exec_cluster flags)) (fs w) /\
    (fetchKubeConfigFromProvider (exec_cluster flags) w1 = (w2, Ok kc) ->
     Users kc !! 0%nat = Some u ->
     0 <= clock (ticks w2) ->
     json_Encode (renewedCredential u (clock (ticks w2))) = inl text ->
     exists w',
       execCredentialCmd flags w = (w', Ok tt) /\
       fs w' = <[cachedKubeConfigPath (exec_cluster flags) := text]> (fs w) /\
       net w' =
         (net w ++ [renewRequest (exec_cluster flags);
                    serviceRequest (exec_cluster flags)])%list).
Proof.
  intros Hfile Hdecode Hstatus Hstale.
  destruct (readStartingConfig_returns flags w)
    as (w0 & Hstart & Hfs0 & _ & Hnet0 & Hticks0 & _).
  assert (exists w1,
            loadCachedKubeConfig (exec_cluster flags) w0 =
              (w1, Ok (None, None)) /\
            fs w1 = delete (cachedKubeConfigPath (exec_cluster flags)) (fs w) /\
            net w1 = net w)
    as (w1 & Hload & Hfs1 & Hnet1).
  { rewrite <- Hfs0 in Hfile. rewrite <- Hticks0 in Hstale.
    destruct (metav1_IsZero (ExpirationTimestamp st)) eqn:Hzero.
    - rewrite (loadCachedKubeConfig_unset _ w0 data ec st) by assumption.
      eexists. split; [reflexivity|]. cbn. now rewrite Hfs0.
    - destruct Hstale as [|(t & Hstamp & Hnow)]; [easy|].
      rewrite (loadCachedKubeConfig_timed _ w0 data ec st t);
        try assumption.
      + unfold Time_Before.
        destruct (Z.ltb_spec t (clock (ticks w0))); [|lia].
        eexists. split; [reflexivity|]. cbn. now rewrite Hfs0.
      + intros ->. now rewrite Hstamp in Hzero. }
  assert (lookupCachedCredential flags w = (w1, Ok None)) as Hlookup.
  { unfold lookupCachedCredential. run. now rewrite Hstart, Hload. }
  exists w1. split; [exact Hlookup|]. split; [exact Hfs1|].
  intros Hfetch Huser Hclock Hencode.
  destruct (execCredentialCmd_renews flags w w1 w2 kc u text)
    as (w' & Hrun & Hfs & Hnet & _); try assumption.
  exists w'. split; [exact Hrun|]. split.
  - rewrite Hfs, Hfs1. apply insert_delete_eq.
  - rewrite Hnet. apply fetchKubeConfigFromProvider_sent in Hfetch.
    now rewrite Hfetch, Hnet1.
Qed.

End Further.

(** ** The properties at work on the sample machine *)

Import Sample.

(** *** The sample renderer writes the members of a status *)

Lemma append_assoc (a b c : string) : (a +:+ b) +:+ c = a +:+ b +:+ c.
Proof.
  induction a as [|x a IH]; [reflexivity|].
  change (String x ((a +:+ b) +:+ c) = String x (a +:+ b +:+ c)).
  now rewrite IH.
Qed.

Lemma has_member_itself name value :
  has_member name (member_indented name value).
Proof.
  exists EmptyString, value. unfold member_indented.
  change (quoted name +:+ ": " +:+ value =
          (quoted name +:+ ": ") +:+ value).
  symmetry. apply append_assoc.
Qed.

Lemma has_member_before name text s :
  has_member name text -> has_member name (s +:+ text).
Proof.
  intros (before & after & ->). exists (s +:+ before), after.
  symmetry. apply append_assoc.
Qed.

Lemma has_member_after name text s :
  has_member name text -> has_member name (text +:+ s).
Proof.
  intros (before & after & ->). exists before, (after +:+ s).
  rewrite (append_assoc before _ s).
  now rewrite (append_assoc _ after s).
Qed.

Lemma has_member_join name sep items :
  Exists (has_member name) items -> has_member name (join sep items).
Proof.
  induction 1 as [item rest Hitem | item rest Hrest IH].
  - destruct rest as [|next rest]; [exact Hitem|].
    change (has_member name (item +:+ sep +:+ join sep (next :: rest))).
    now apply has_member_after.
  - destruct rest as [|next rest]; [inversion Hrest|].
    change (has_member name (item +:+ sep +:+ join sep (next :: rest))).
    now do 2 apply has_member_before.
Qed.

Lemma has_member_object name indent inner members :
  Exists (has_member name) members ->
  has_member name (object_indented indent inner members).
Proof.
  intros Hmember. destruct members as [|m rest]; [inversion Hmember|].
  unfold object_indented.
  do 4 apply has_member_before. apply has_member_after.
  now apply has_member_join.
Qed.

Lemma marshal_indent_writes_status_strings :
  writes_status_strings marshal_indent.
Proof.
  intros ec st prefix indent Hstatus.
  assert (forall name,
            Exists (has_member name) (status_members_indented st) ->
            has_member name (fst (marshal_indent ec prefix indent)))
    as Hrender.
  { intros name Hmember. unfold marshal_indent, render_indented. cbn [fst].
    apply has_member_object. rewrite Hstatus.
    apply Exists_app. right. apply Exists_app. right.
    apply Exists_app. right. apply Exists_cons_hd.
    unfold member_indented. do 2 apply has_member_before.
    now apply has_member_object. }
  unfold status_members_indented in Hrender. split; intros Hnonempty.
  - apply Hrender. rewrite Hnonempty.
    apply Exists_app. right. apply Exists_app. right.
    apply Exists_cons_hd. apply has_member_itself.
  - apply Hrender. rewrite Hnonempty.
    apply Exists_app. right. apply Exists_app. left.
    apply Exists_cons_hd. apply has_member_itself.
Qed.

(** The cache is empty and service [nousers] lists no user: the error line
    lands on standard output. *)
Lemma no_user_error_is_printed_to_stdout_witness :
  exists w',
    execCredentialCmd (exec_credential "nousers") fresh = (w', Ok tt) /\
    stdout w' =
      "Error: Could not retrieve kubeconfig from provider for account:  default"
      +:+ newline.
Proof.
  destruct (no_user_error_is_printed_to_stdout
              (exec_credential "nousers") fresh fresh
              (fst (fetchKubeConfigFromProvider "nousers" fresh))
              (bundle []))
    as (w' & Hrun & Hout & _); [vm_compute; reflexivity..|].
  exists w'. split; [exact Hrun|]. rewrite Hout. vm_compute. reflexivity.
Defined.

(** A cache file holding [{}]. *)
Lemma cached_record_without_status_panics_witness :
  loadCachedKubeConfig "abc" (with_cache "{}") =
    (with_cache "{}", Panic nil_dereference) /\
  exists w', execCredentialCmd abc (with_cache "{}") = (w', Panic nil_dereference).
Proof.
  apply (cached_record_without_status_panics abc (with_cache "{}")
           "{}" no_status); vm_compute; reflexivity.
Defined.

(** A read ten minutes before the expiration. *)
Lemma cache_read_by_expiration_witness :
  exists w',
    loadCachedKubeConfig "abc" (with_cache (cache_file live)) =
      (w', Ok (Some live, None)) /\
    fs w' = fs (with_cache (cache_file live)).
Proof.
  destruct (cache_read_by_expiration "abc" (with_cache (cache_file live))
              (cache_file live) live
              {| ExpirationTimestamp := Some (T0 + 600 * second);
                 ClientCertificateData := "CERT";
                 ClientKeyData := "KEY" |})
    as (Hhit & _); [vm_compute; reflexivity..|].
  apply (Hhit (T0 + 600 * second)); [reflexivity|vm_compute; discriminate..].
Defined.

(** C3, as stated, fails at the instant of expiration: the entry expires at
    [T0], the clock reads [T0], which is at or after it, and the read
    returns the cached record and leaves the file in place. *)
Lemma cache_read_at_expiration_is_a_hit :
  let w := with_cache (cache_file due) in
  clock (ticks w) = T0 /\
  (exists st, Status due = Some st /\ ExpirationTimestamp st = Some T0) /\
  loadCachedKubeConfig "abc" w = (with_ticks w 1, Ok (Some due, None)) /\
  fs (with_ticks w 1) !! cachedKubeConfigPath "abc" = Some (cache_file due).
Proof.
  cbv zeta. split; [vm_compute; reflexivity|].
  split; [eexists; split; reflexivity|].
  split; vm_compute; reflexivity.
Qed.

(** A read one second after the expiration, and the read after it. *)
Lemma stale_cache_deleted_on_read_witness :
  exists w',
    loadCachedKubeConfig "abc" (with_cache (cache_file lapsed)) =
      (w', Ok (None, None)) /\
    fs w' !! cachedKubeConfigPath "abc" = None /\
    loadCachedKubeConfig "abc" w' = (w', Ok (None, None)).
Proof.
  destruct (stale_cache_deleted_on_read "abc" (with_cache (cache_file lapsed))
              (cache_file lapsed))
    as (Hstale & _); [vm_compute; reflexivity|].
  apply (Hstale lapsed
           {| ExpirationTimestamp := Some (T0 - second);
              ClientCertificateData := "CERT";
              ClientKeyData := "KEY" |}); [vm_compute; reflexivity..|].
  right. exists (T0 - second). split; [reflexivity|vm_compute; reflexivity].
Defined.

(** C4, as stated, fails on a file that does not parse: the read returns the
    decoder's error and the file is still there, so the next read meets it
    again instead of finding the entry absent. *)
Lemma unparsable_cache_file_is_kept :
  let w := with_cache "not json" in
  let failure := Ok (None, Some (ErrOther "invalid character in cache file")) in
  loadCachedKubeConfig "abc" w = (w, failure) /\
  fs w !! cachedKubeConfigPath "abc" = Some "not json" /\
  snd (loadCachedKubeConfig "abc" (fst (loadCachedKubeConfig "abc" w))) =
    failure.
Proof. cbv zeta. repeat split; vm_compute; reflexivity. Qed.

(** save-kubeconfig for service [nousers], on a machine without kubeconfig
    file. *)
Lemma failed_merge_writes_no_kubeconfig_witness :
  let flags := save_kubeconfig_to "nousers" false in
  exists w',
    saveKubeconfigCmd flags fresh = (w', Exit 1) /\
    stderr w' = "Error: Invaild kubeconfig" +:+ newline /\
    fs w' = {[ kubeconfig := EmptyString ]}.
Proof.
  cbv zeta.
  pose (w0 := with_fs fresh {[ kubeconfig := EmptyString ]}).
  destruct (failed_merge_writes_no_kubeconfig
              (save_kubeconfig_to "nousers" false) fresh w0
              {| GlobalFile := kubeconfig |} empty_config
              (fst (fetchKubeConfigFromProvider "nousers" w0)) (bundle []))
    as (Hinvalid & _); [vm_compute; reflexivity..|].
  eexists. split; [apply Hinvalid; now right|].
  split; vm_compute; reflexivity.
Defined.

(** exec-credential for service [abc], nothing cached. *)
Lemma cache_miss_builds_caches_and_prints_witness :
  exists w' ec st,
    execCredentialCmd abc fresh = (w', Ok tt) /\
    Status ec = Some st /\
    ExpirationTimestamp st = Some (T0 + time_Hour) /\
    ClientKeyData st = "KEY" /\
    ClientCertificateData st = "CERT" /\
    fs w' = {[ cache_path "abc" := cache_file ec ]} /\
    stdout w' = render_indented "    " ec +:+ newline /\
    has_member "clientKeyData" (render_indented "    " ec) /\
    has_member "clientCertificateData" (render_indented "    " ec).
Proof.
  destruct (cache_miss_builds_caches_and_prints abc fresh fresh
              (fst (fetchKubeConfigFromProvider "abc" fresh))
              (bundle [admin "Q0VSVA==" "S0VZ"]) (admin "Q0VSVA==" "S0VZ"))
    as (w' & ec & st & text & Hrun & Hst & Hexp & Hkey & Hcert & Htext &
        Hfs & Hprinted);
    [vm_compute; reflexivity.. | vm_compute; discriminate
     | intros ec; eexists; reflexivity
     | exact marshal_indent_writes_status_strings |].
  cbv zeta in Hprinted.
  destruct Hprinted as (_ & Hout & Hkeyed & Hcertified).
  exists w', ec, st. repeat split; try assumption.
  - rewrite Hfs. injection Htext as <-. reflexivity.
  - now apply Hout.
  - apply Hkeyed. reflexivity.
  - apply Hcertified. reflexivity.
Defined.

(** C6, as stated, fails on service [badkey]: nothing is cached, the bundle
    has a user, and yet standard output starts with the decoder's complaint
    and the JSON document printed after it has no [clientKeyData] member. *)
Lemma undecodable_key_leaves_no_clientKeyData :
  let flags := exec_credential "badkey" in
  let w' := fst (execCredentialCmd flags fresh) in
  lookupCachedCredential flags fresh = (fresh, Ok None) /\
  snd (fetchKubeConfigFromProvider "badkey" fresh) =
    Ok (bundle [admin "Q0VSVA==" "%%%"]) /\
  snd (execCredentialCmd flags fresh) = Ok tt /\
  String.prefix ("illegal base64 data at input byte 0" +:+ newline)
    (stdout w') = true /\
  String.index 0 "clientKeyData" (stdout w') = None /\
  (exists position,
     String.index 0 "clientCertificateData" (stdout w') = Some position).
Proof.
  cbv zeta. repeat split; try (vm_compute; reflexivity).
  eexists. vm_compute. reflexivity.
Qed.

(** A bundle whose client key is not base64, merged with embedded
    credentials. *)
Lemma malformed_base64_fails_the_merge_witness :
  mergeKubeConfig false "badkey" empty_config
    (bundle [admin "Q0VSVA==" "%%%"]) fresh =
  (with_stderr fresh ("illegal base64 data at input byte 0" +:+ newline),
   Exit 1).
Proof.
  destruct (malformed_base64_fails_the_merge "badkey" empty_config
              (bundle [admin "Q0VSVA==" "%%%"])
              {| ClusterName := "gsk-abc";
                 Cluster := {| Server := "https://abc.k8s.example:6443";
                               CertificateAuthorityData := "Q0E=" |} |}
              (admin "Q0VSVA==" "%%%") fresh)
    as (_ & _ & Hkey & _); [reflexivity..|].
  rewrite (Hkey (CorruptInputError 0)); vm_compute; reflexivity.
Defined.

(** C7, as stated, fails in the exec-plugin mode: the client key of service
    [badkey] is not base64, and save-kubeconfig with [--credential-plugin]
    returns normally after writing the kubeconfig. *)
Lemma exec_plugin_mode_ignores_malformed_key :
  let flags := save_kubeconfig_to "badkey" true in
  snd (DecodeString "%%%") = Some (CorruptInputError 0) /\
  (exists merged,
     mergeKubeConfig true "badkey" empty_config
       (bundle [admin "Q0VSVA==" "%%%"]) fresh = (fresh, Ok merged)) /\
  snd (saveKubeconfigCmd flags fresh) = Ok tt /\
  fs (fst (saveKubeconfigCmd flags fresh)) !! kubeconfig =
    Some ("current-context: gsk-abc" +:+ newline).
Proof.
  cbv zeta. split; [vm_compute; reflexivity|].
  split; [eexists; vm_compute; reflexivity|].
  split; vm_compute; reflexivity.
Qed.

(** The bundle of service [abc] merged twice with embedded credentials. *)
Lemma merge_twice_is_merge_once_witness :
  exists merged,
    mergeKubeConfig false "abc" empty_config
      (bundle [admin "Q0VSVA==" "S0VZ"]) fresh = (fresh, Ok merged) /\
    mergeKubeConfig false "abc" merged
      (bundle [admin "Q0VSVA==" "S0VZ"]) fresh = (fresh, Ok merged).
Proof.
  eexists. split; [vm_compute; reflexivity|].
  apply (merge_twice_is_merge_once false "abc" empty_config
           (bundle [admin "Q0VSVA==" "S0VZ"]) fresh).
  vm_compute. reflexivity.
Defined.

(** exec-credential with a cache file that expires in ten minutes. *)
Lemma cache_hit_prints_without_network_witness :
  exists w',
    execCredentialCmd abc (with_cache (cache_file live)) = (w', Ok tt) /\
    net w' = [] /\
    fs w' = fs (with_cache (cache_file live)) /\
    stdout w' = render_indented "    " live +:+ newline.
Proof.
  destruct (cache_hit_prints_without_network abc
              (with_cache (cache_file live)) (cache_file live) live
              {| ExpirationTimestamp := Some (T0 + 600 * second);
                 ClientCertificateData := "CERT";
                 ClientKeyData := "KEY" |} (T0 + 600 * second))
    as (w' & Hrun & Hnet & Hfs & Hout);
    [vm_compute; reflexivity.. | vm_compute; discriminate
     | vm_compute; reflexivity |].
  exists w'. repeat split; assumption.
Defined.

(** *** Further runs *)

(** Reading a lapsed cache file that lies next to a kubeconfig file. *)
Lemma cache_read_touches_one_file_witness :
  let w := with_cache_and_kubeconfig (cache_file lapsed) in
  let w' := fst (loadCachedKubeConfig "abc" w) in
  (fs w' = fs w \/ fs w' = delete (cachedKubeConfigPath "abc") (fs w)) /\
  (forall path, path <> cachedKubeConfigPath "abc" ->
     fs w' !! path = fs w !! path) /\
  stdout w' = stdout w /\ stderr w' = stderr w /\ net w' = net w.
Proof.
  cbv zeta.
  apply (cache_read_touches_one_file "abc"
           (with_cache_and_kubeconfig (cache_file lapsed)) _
           (snd (loadCachedKubeConfig "abc"
                   (with_cache_and_kubeconfig (cache_file lapsed))))).
  vm_compute. reflexivity.
Defined.

(** The hit on the live cache file. *)
Lemma cache_hit_is_unexpired_witness :
  exists data st t,
    fs (with_cache (cache_file live)) !! cachedKubeConfigPath "abc" =
      Some data /\
    json_Decode data = inl (Some live) /\
    Status live = Some st /\
    ExpirationTimestamp st = Some t /\
    t <> 0 /\
    t >= clock (ticks (with_cache (cache_file live))).
Proof.
  apply (cache_hit_is_unexpired "abc" (with_cache (cache_file live))
           (with_ticks (with_cache (cache_file live)) 1) live None).
  vm_compute. reflexivity.
Defined.

(** Caching the live credential next to a kubeconfig file. *)
Lemma cache_write_touches_one_file_witness :
  let w := unloadable in
  let w' := fst (cacheKubeConfig "abc" live w) in
  (forall path, path <> cachedKubeConfigPath "abc" ->
     fs w' !! path = fs w !! path) /\
  stdout w' = stdout w /\ stderr w' = stderr w /\ net w' = net w /\
  (forall st, Status live = Some st ->
     metav1_IsZero (ExpirationTimestamp st) = true ->
     w' = w /\ snd (cacheKubeConfig "abc" live w) = Ok None).
Proof.
  cbv zeta.
  apply (cache_write_touches_one_file "abc" live unloadable).
  vm_compute. reflexivity.
Defined.

(** The live credential, cached and read back. *)
Lemma cached_credential_is_read_back_witness :
  exists w1 w2,
    cacheKubeConfig "abc" live fresh = (w1, Ok None) /\
    fs w1 !! cachedKubeConfigPath "abc" = Some (cache_file live) /\
    loadCachedKubeConfig "abc" w1 = (w2, Ok (Some live, None)) /\
    fs w2 = fs w1.
Proof.
  apply (cached_credential_is_read_back "abc" live
           {| ExpirationTimestamp := Some (T0 + 600 * second);
              ClientCertificateData := "CERT";
              ClientKeyData := "KEY" |}
           (cache_file live) live
           {| ExpirationTimestamp := Some (T0 + 600 * second);
              ClientCertificateData := "CERT";
              ClientKeyData := "KEY" |}
           (T0 + 600 * second) fresh);
    vm_compute; try reflexivity; discriminate.
Defined.

(** The fetch for service [abc]. *)
Lemma fetch_renews_before_it_reads_witness :
  let w' := fst (fetchKubeConfigFromProvider "abc" fresh) in
  (net w' = [renewRequest "abc"] \/
   net w' = [renewRequest "abc"; serviceRequest "abc"]) /\
  (forall kc, snd (fetchKubeConfigFromProvider "abc" fresh) = Ok kc ->
     net w' = [renewRequest "abc"; serviceRequest "abc"]).
Proof.
  cbv zeta.
  apply (fetch_renews_before_it_reads "abc" fresh).
  vm_compute. reflexivity.
Defined.

(** The answer for service [abc] has one credential. *)
Lemma fetch_decodes_the_first_credential_witness :
  fetchKubeConfigFromProvider "abc" fresh =
    (with_net fresh [renewRequest "abc"; serviceRequest "abc"],
     Ok (bundle [abc_admin])).
Proof.
  destruct (fetch_decodes_the_first_credential "abc" fresh
              {| Properties := {| Credentials := [] |} |}
              {| Properties :=
                   {| Credentials :=
                        [{| KubeConfig := "kubeconfig of abc" |}] |} |})
    as (_ & Hfirst); [vm_compute; reflexivity..|].
  rewrite (Hfirst {| KubeConfig := "kubeconfig of abc" |} []);
    vm_compute; reflexivity.
Defined.

(** The panic on a cache file holding [{}]. *)
Lemma exec_credential_panics_only_on_the_cache_witness :
  exists data,
    fs (with_cache "{}") !! cachedKubeConfigPath "abc" = Some data /\
    (json_Decode data = inl None \/
     exists ec, json_Decode data = inl (Some ec) /\ Status ec = None).
Proof.
  apply (exec_credential_panics_only_on_the_cache abc (with_cache "{}")
           (with_cache "{}") nil_dereference).
  vm_compute. reflexivity.
Defined.

(** exec-credential for service [nousers], nothing cached. *)
Lemma fetch_without_user_is_not_cached_witness :
  exists w',
    execCredentialCmd (exec_credential "nousers") fresh = (w', Ok tt) /\
    fs w' = fs fresh /\
    net w' = [renewRequest "nousers"; serviceRequest "nousers"].
Proof.
  apply (fetch_without_user_is_not_cached (exec_credential "nousers")
           fresh fresh
           (fst (fetchKubeConfigFromProvider "nousers" fresh)) (bundle []));
    vm_compute; reflexivity.
Defined.

(** Two runs in a row for service [abc], fifty minutes before [T0]. *)
Lemma renewed_credential_serves_the_next_run_witness :
  exists w' w'',
    @execCredentialCmd earlier abc fresh = (w', Ok tt) /\
    @execCredentialCmd earlier abc w' = (w'', Ok tt) /\
    net w'' = net w' /\
    fs w'' = fs w' /\
    stdout w'' = stdout w' +:+ render_indented "    " live +:+ newline.
Proof.
  apply (@renewed_credential_serves_the_next_run earlier abc fresh fresh
           (fst (@fetchKubeConfigFromProvider earlier "abc" fresh))
           (bundle [abc_admin]) abc_admin (cache_file live) live
           {| ExpirationTimestamp := Some (T0 + 600 * second);
              ClientCertificateData := "CERT";
              ClientKeyData := "KEY" |}
           (T0 + 600 * second));
    vm_compute; try reflexivity; discriminate.
Defined.

(** exec-credential for service [abc] over a cache file that does not
    parse. *)
Lemma unparsable_cache_is_replaced_witness :
  exists w1,
    lookupCachedCredential abc (with_cache "not json") = (w1, Ok None) /\
    stderr w1 = "invalid character in cache file" +:+ newline /\
    exists w' text,
      execCredentialCmd abc (with_cache "not json") = (w', Ok tt) /\
      fs w' = {[ cache_path "abc" := text ]}.
Proof.
  pose (w1 := with_stderr (with_cache "not json")
                ("invalid character in cache file" +:+ newline)).
  pose (ec := credential (Some (T0 + time_Hour))).
  destruct (unparsable_cache_is_replaced abc (with_cache "not json")
              "not json" (ErrOther "invalid character in cache file")
              (fst (fetchKubeConfigFromProvider "abc" w1))
              (bundle [abc_admin]) abc_admin (cache_file ec))
    as (w1' & Hlookup & _ & _ & Hrun); [vm_compute; reflexivity..|].
  assert (w1' = w1) as ->.
  { assert (lookupCachedCredential abc (with_cache "not json") =
              (w1, Ok None)) as E by (vm_compute; reflexivity).
    rewrite E in Hlookup. now injection Hlookup. }
  exists w1. split; [exact Hlookup|]. split; [reflexivity|].
  destruct Hrun as (w' & Hcmd & Hfs);
    [vm_compute; reflexivity | reflexivity | vm_compute; discriminate
     | vm_compute; reflexivity |].
  exists w', (cache_file ec). split; [exact Hcmd|].
  rewrite Hfs. vm_compute. reflexivity.
Defined.

(** The bundle of service [abc] merged into a configuration that knows
    another cluster: embedded mode. *)
Lemma merged_entries_witness :
  let merged :=
    match snd (mergeKubeConfig false "abc" existing_config
                 (bundle [abc_admin]) fresh) with
    | Ok merged => merged
    | _ => empty_config
    end in
  cfg_Clusters merged !! "gsk-abc" =
    Some {| api_Server := "https://abc.k8s.example:6443";
            api_CertificateAuthorityData := "CA" |} /\
  cfg_Contexts merged !! "gsk-abc" =
    Some {| ctx_Cluster := "gsk-abc"; ctx_AuthInfo := "gsk-abc-admin" |} /\
  cfg_CurrentContext merged = "gsk-abc" /\
  cfg_AuthInfos merged !! "gsk-abc-admin" =
    Some {| api_ClientCertificate := EmptyString;
            api_ClientCertificateData := "CERT";
            api_ClientKey := EmptyString;
            api_ClientKeyData := "KEY";
            api_Exec := None |}.
Proof.
  cbv zeta.
  refine (merged_entries false "abc" existing_config (bundle [abc_admin])
            abc_cluster abc_admin fresh fresh
            match snd (mergeKubeConfig false "abc" existing_config
                         (bundle [abc_admin]) fresh) with
            | Ok merged => merged
            | _ => empty_config
            end _ _ _);
    vm_compute; reflexivity.
Defined.

(** The same merge in exec-plugin mode leaves the other cluster, user and
    context alone. *)
Lemma merge_keeps_the_other_entries_witness :
  let merged :=
    match snd (mergeKubeConfig true "abc" existing_config
                 (bundle [abc_admin]) fresh) with
    | Ok merged => merged
    | _ => empty_config
    end in
  cfg_Clusters merged !! "other" = Some other_cluster /\
  cfg_AuthInfos merged !! "other-admin" = Some other_user /\
  cfg_Contexts merged !! "other" = Some other_context.
Proof.
  cbv zeta.
  destruct (merge_keeps_the_other_entries true "abc" existing_config
              (bundle [abc_admin]) abc_cluster abc_admin fresh fresh
              match snd (mergeKubeConfig true "abc" existing_config
                           (bundle [abc_admin]) fresh) with
              | Ok merged => merged
              | _ => empty_config
              end)
    as (Hclusters & Husers & Hcontexts); [vm_compute; reflexivity..|].
  rewrite Hclusters, Husers, Hcontexts by discriminate.
  repeat split.
Defined.

(** save-kubeconfig with [--kubeconfig] on a machine without that file. *)
Lemma kubeconfig_file_is_prepared_witness :
  let flags := save_kubeconfig_to "abc" false in
  let w0 := fst (prepareKubeconfigFile flags fresh) in
  fs w0 !! kubeconfig = Some EmptyString /\
  (forall path, path <> kubeconfig -> fs w0 !! path = fs fresh !! path).
Proof.
  cbv zeta.
  destruct (kubeconfig_file_is_prepared (save_kubeconfig_to "abc" false)
              fresh
              (fst (prepareKubeconfigFile (save_kubeconfig_to "abc" false)
                      fresh))
              {| GlobalFile := kubeconfig |})
    as (_ & _ & _ & Hothers); [vm_compute; reflexivity|].
  split; [vm_compute; reflexivity|exact Hothers].
Defined.

(** save-kubeconfig over a kubeconfig file that does not load. *)
Lemma unloadable_kubeconfig_stops_before_the_fetch_witness :
  saveKubeconfigCmd (save_kubeconfig_to "abc" false) unloadable =
    (with_stderr unloadable ("error loading config file" +:+ newline),
     Exit 1) /\
  net unloadable = net unloadable.
Proof.
  apply (unloadable_kubeconfig_stops_before_the_fetch
           (save_kubeconfig_to "abc" false) unloadable unloadable
           {| GlobalFile := kubeconfig |}
           (ErrOther "error loading config file"));
    vm_compute; reflexivity.
Defined.

(** save-kubeconfig for service [abc] on a machine without kubeconfig. *)
Lemma save_kubeconfig_writes_the_merge_witness :
  let flags := save_kubeconfig_to "abc" false in
  snd (saveKubeconfigCmd flags fresh) = Ok tt /\
  fs (fst (saveKubeconfigCmd flags fresh)) =
    {[ kubeconfig := "current-context: gsk-abc" +:+ newline ]}.
Proof.
  cbv zeta.
  pose (w0 := with_fs fresh {[ kubeconfig := EmptyString ]}).
  pose (w1 := fst (fetchKubeConfigFromProvider "abc" w0)).
  rewrite (save_kubeconfig_writes_the_merge (save_kubeconfig_to "abc" false)
             fresh w0 {| GlobalFile := kubeconfig |} empty_config
             w1 (bundle [abc_admin]) w1
             match snd (mergeKubeConfig false "abc" empty_config
                          (bundle [abc_admin]) w1) with
             | Ok merged => merged
             | _ => empty_config
             end);
    vm_compute; split; reflexivity.
Defined.

(** exec-credential with the live cache file next to a kubeconfig file that
    does not load. *)
Lemma exec_credential_goes_on_without_kubeconfig_witness :
  let w := with_cache_and_kubeconfig (cache_file live) in
  exists w',
    execCredentialCmd abc w = (w', Ok tt) /\
    stdout w' = render_indented "    " live +:+ newline /\
    stderr w' = "error loading config file" +:+ newline.
Proof.
  cbv zeta.
  destruct (exec_credential_goes_on_without_kubeconfig abc
              (with_cache_and_kubeconfig (cache_file live))
              (ErrOther "error loading config file") (cache_file live) live
              {| ExpirationTimestamp := Some (T0 + 600 * second);
                 ClientCertificateData := "CERT";
                 ClientKeyData := "KEY" |}
              (T0 + 600 * second))
    as (w' & Hrun & Hout & Herr);
    [vm_compute; reflexivity.. | vm_compute; discriminate
     | vm_compute; discriminate |].
  exists w'. split; [exact Hrun|].
  split; [rewrite Hout | rewrite Herr]; vm_compute; reflexivity.
Defined.

(** exec-credential for service [abc] over the lapsed cache file. *)
Lemma expired_cache_is_renewed_witness :
  exists w' text,
    execCredentialCmd abc (with_cache (cache_file lapsed)) = (w', Ok tt) /\
    fs w' = {[ cache_path "abc" := text ]} /\
    net w' = [renewRequest "abc"; serviceRequest "abc"].
Proof.
  pose (w := with_cache (cache_file lapsed)).
  pose (w1 := with_ticks (with_fs w ∅) 1).
  pose (ec := credential (Some (T0 + second + time_Hour))).
  destruct (expired_cache_is_renewed abc w (cache_file lapsed) lapsed
              {| ExpirationTimestamp := Some (T0 - second);
                 ClientCertificateData := "CERT";
                 ClientKeyData := "KEY" |}
              (fst (fetchKubeConfigFromProvider "abc" w1))
              (bundle [abc_admin]) abc_admin (cache_file ec))
    as (w1' & Hlookup & _ & Hrun); [vm_compute; reflexivity..| |].
  { right. exists (T0 - second). split; vm_compute; reflexivity. }
  assert (w1' = w1) as ->.
  { assert (lookupCachedCredential abc w = (w1, Ok None)) as E
      by (vm_compute; reflexivity).
    rewrite E in Hlookup. now injection Hlookup. }
  destruct Hrun as (w' & Hcmd & Hfs & Hnet);
    [vm_compute; reflexivity | reflexivity | vm_compute; discriminate
     | vm_compute; reflexivity |].
  exists w', (cache_file ec). split; [exact Hcmd|]. split.
  - rewrite Hfs. vm_compute. reflexivity.
  - rewrite Hnet. reflexivity.
Defined.

(** A bundle with two clusters and two users merged into an empty
    configuration: one cluster and one user come out. *)
Lemma merge_uses_first_entries_only_witness :
  exists merged,
    mergeKubeConfig false "abc" empty_config two_of_each fresh =
      (fresh, Ok merged) /\
    cfg_Clusters merged =
      {[ "gsk-abc" :=
           {| api_Server := "https://abc.k8s.example:6443";
              api_CertificateAuthorityData := "CA" |} ]} /\
    cfg_AuthInfos merged =
      {[ "gsk-abc-admin" :=
           {| api_ClientCertificate := EmptyString;
              api_ClientCertificateData := "CERT";
              api_ClientKey := EmptyString;
              api_ClientKeyData := "KEY";
              api_Exec := None |} ]} /\
    cfg_Clusters merged !! "gsk-second" = None /\
    cfg_AuthInfos merged !! "gsk-second-admin" = None.
Proof.
  destruct (merge_uses_first_entries_only false "abc" empty_config
              abc_cluster [second_cluster] abc_admin [second_user]
              "gsk-abc" fresh)
    as (_ & Hsucceeds & Hentries).
  destruct Hsucceeds as (merged & Hmerge);
    [vm_compute; reflexivity | right; split; vm_compute; reflexivity |].
  exists merged. split; [exact Hmerge|].
  destruct (Hentries fresh merged Hmerge) as (_ & -> & -> & _).
  vm_compute. repeat split.
Defined.
